(** * Shallow embedding of the extraction command lines

    Two entry points of the repository are embedded here:
    - [c42seceventcli/aed/main.py], the [extract-aed] command
      (module [Aed]);
    - [src/code42cli/cmds/alerts.py], the [alerts] command group
      (module [Alerts]).

    Both are sequential Python programs whose observable behaviour is the
    sequence of calls they make to their collaborators (keyring, logger,
    cursor store, SDK, extractor) and the way the process ends (normal
    return, [exit(n)], uncaught exception).  They are embedded in a small
    state, trace and exception monad. *)

From Stdlib Require Import ZArith List String Ascii Bool Lia DecimalString.
Import ListNotations.
Local Open Scope string_scope.
Local Open Scope Z_scope.
Local Open Scope list_scope.

(** ** Python runtime: exceptions, process outcome, the monad *)

Module Python.

(** The exception classes the sources name, and a catch-all for the
    other subclasses of [Exception].  A constructor stands for every
    instance of its class, subclasses included, that [except] would match
    under that name: [IOError] for an instance of [IOError] (of [OSError]
    in Python 3, so also [PermissionError] and the like) that is not a
    [gaierror]; [OtherException] for an instance of none of the classes
    named here. *)
Inductive exn : Type :=
| PasswordDeleteError
| AttributeError
| gaierror
| IOError
| KeyboardInterrupt
| TypeError
| ValueError
| IndexError
| KeyError
| OtherException (name : string).

(** [except Exception] catches everything but [KeyboardInterrupt]
    (a [BaseException]); [exit] raises [SystemExit], which is modelled
    as the separate outcome [SysExit]. *)
Definition is_Exception (e : exn) : bool :=
  match e with
  | KeyboardInterrupt => false
  | _ => true
  end.

Inductive outcome (A : Type) : Type :=
| Normal (a : A)
| SysExit (code : Z)
| Raised (e : exn).
Arguments Normal {A} a.
Arguments SysExit {A} code.
Arguments Raised {A} e.

(** Exit status of the interpreter: an uncaught exception ends the
    process with status 1.  (From Python 3.8 on an uncaught
    [KeyboardInterrupt] ends it by the signal instead; where that matters
    a statement speaks of the outcome, not of this number.) *)
Definition exit_status {A} (o : outcome A) : Z :=
  match o with
  | Normal _ => 0
  | SysExit c => c
  | Raised _ => 1
  end.

Definition completed {A} (o : outcome A) : bool :=
  match o with
  | Normal _ => true
  | _ => false
  end.

(** A computation reads and updates a world [W] and emits events [E],
    listed in the order they happen. *)
Definition Py (W E A : Type) : Type := W -> outcome A * W * list E.

Section Ops.
Context {W E : Type}.

Definition ret {A} (a : A) : Py W E A := fun w => (Normal a, w, []).

Definition bind {A B} (c : Py W E A) (k : A -> Py W E B) : Py W E B :=
    fun w =>
      match c w with
      | (Normal a, w1, t1) =>
          match k a w1 with
          | (o, w2, t2) => (o, w2, t1 ++ t2)
          end
      | (SysExit n, w1, t1) => (SysExit n, w1, t1)
      | (Raised e, w1, t1) => (Raised e, w1, t1)
      end.

Definition emit (e : E) : Py W E unit := fun w => (Normal tt, w, [e]).

Definition exit {A} (code : Z) : Py W E A := fun w => (SysExit code, w, []).

Definition raise {A} (e : exn) : Py W E A := fun w => (Raised e, w, []).

Definition gets {A} (f : W -> A) : Py W E A := fun w => (Normal (f w), w, []).

Definition modify (f : W -> W) : Py W E unit := fun w => (Normal tt, f w, []).

(** The result of a call into a collaborator that may raise. *)
Definition lift {A} (r : exn + A) : Py W E A :=
    match r with
    | inl e => raise e
    | inr a => ret a
    end.

(** [try: c except <classes selected by h>: handler]. *)
Definition try_except {A} (c : Py W E A) (h : exn -> option (Py W E A))
    : Py W E A :=
    fun w =>
      match c w with
      | (Raised e, w1, t1) =>
          match h e with
          | Some k =>
              match k w1 with
              | (o, w2, t2) => (o, w2, t1 ++ t2)
              end
          | None => (Raised e, w1, t1)
          end
      | r => r
      end.

(** [for x in xs: body x]. *)
Fixpoint for_each {A} (xs : list A) (body : A -> Py W E unit) : Py W E unit :=
    match xs with
    | [] => ret tt
    | x :: xs' => bind (body x) (fun _ => for_each xs' body)
    end.

Definition result {A} (r : outcome A * W * list E) : outcome A := fst (fst r).
Definition world {A} (r : outcome A * W * list E) : W := snd (fst r).
Definition trace {A} (r : outcome A * W * list E) : list E := snd r.

(** Every event of the run satisfies [p], and the run either completes or
    ends the process with status 1. *)
Definition quiet {A} (p : E -> bool) (c : Py W E A) : Prop :=
  forall w,
    forallb p (trace (c w)) = true /\
    (completed (result (c w)) = true \/ exit_status (result (c w)) = 1).

Definition never_completes {A} (c : Py W E A) : Prop :=
  forall w, completed (result (c w)) = false.

(** Every event that satisfies [second] comes after one that satisfies
    [first]; [seen] tells whether such a one has already happened. *)
Fixpoint preceded (first second : E -> bool) (seen : bool) (t : list E) : bool :=
  match t with
  | [] => true
  | e :: t' =>
      if second e then seen && preceded first second seen t'
      else preceded first second (seen || first e) t'
  end.

(** An event that satisfies [p] can only be the last one. *)
Fixpoint only_last (p : E -> bool) (t : list E) : bool :=
  match t with
  | [] => true
  | e :: t' =>
      if p e then match t' with [] => true | _ :: _ => false end
      else only_last p t'
  end.

End Ops.

Module Notations.
Declare Scope py_scope.
Delimit Scope py_scope with py.
Notation "x <- c ;; k" := (bind c (fun x => k))
    (at level 61, c at next level, right associativity) : py_scope.
Notation "c ;; k" := (bind c (fun _ => k))
    (at level 61, right associativity) : py_scope.
End Notations.

(** [value is None] and [value is not None]. *)
Definition is_None {A} (o : option A) : bool :=
  match o with None => true | Some _ => false end.

(** [str(x)] for an optional string, as [str.format] renders it. *)
Definition str_opt (o : option string) : string :=
  match o with
  | None => "None"
  | Some s => s
  end.

End Python.

(** ** JSON values as [json.loads] returns them *)

Module Json.
Import Python.

(** A number keeps its literal text: the handlers never compute with it. *)
#[local] Set Warnings "-register-all".
Inductive json : Type :=
| JNull
| JBool (b : bool)
| JNum (literal : string)
| JStr (s : string)
| JArr (items : list json)
| JObj (fields : list (string * json)).

Fixpoint dict_get (key : string) (fields : list (string * json)) : option json :=
  match fields with
  | [] => None
  | (k, v) :: rest => if String.eqb k key then Some v else dict_get key rest
  end.

Definition is_str (key : string) (v : json) : bool :=
  match v with
  | JStr s => String.eqb s key
  | _ => false
  end.

(** [key in s] for two strings: [key] occurs in [s] as a substring. *)
Fixpoint is_substring (key s : string) : bool :=
  match s with
  | EmptyString => String.eqb key EmptyString
  | String _ s' => String.prefix key s || is_substring key s'
  end.

(** The one-character strings of [s], one per byte; Python yields one
    per code point, which is the same for ASCII text. *)
Fixpoint chars (s : string) : list json :=
  match s with
  | EmptyString => []
  | String c s' => JStr (String c EmptyString) :: chars s'
  end.

(** [key in v], where [key] is a string: membership in the keys of a
    dict, in the items of a list, substring of a string; [None], booleans
    and numbers are not containers and the test raises [TypeError]. *)
Definition py_in (key : string) (v : json) : exn + bool :=
  match v with
  | JObj fields => inr (negb (is_None (dict_get key fields)))
  | JArr items => inr (existsb (is_str key) items)
  | JStr s => inr (is_substring key s)
  | JNull | JBool _ | JNum _ => inl TypeError
  end.

(** [v[key]], where [key] is a string. *)
Definition py_getitem (v : json) (key : string) : exn + json :=
  match v with
  | JObj fields =>
      match dict_get key fields with
      | Some x => inr x
      | None => inl KeyError
      end
  | _ => inl TypeError
  end.

(** The items a [for] loop over [v] visits. *)
Definition py_iter (v : json) : exn + list json :=
  match v with
  | JArr items => inr items
  | JObj fields => inr (map (fun kv => JStr (fst kv)) fields)
  | JStr s => inr (chars s)
  | JNull | JBool _ | JNum _ => inl TypeError
  end.

End Json.

(** ** [c42seceventcli/aed/main.py] *)

Module Aed.
Import Python Python.Notations Json.
Local Open Scope py_scope.

Definition _SERVICE_NAME_FOR_KEYCHAIN : string := "c42seceventcli".

(** The namespace [aed_args.get_args()] returns.  Flags are read through
    their truth value only. *)
Record Args : Type := {
  destination_type : string;
  destination : option string;
  destination_port : string;
  destination_protocol : string;
  output_format : string;
  reset_password : bool;
  c42_username : option string;
  c42_authority_url : option string;
  record_cursor : bool;
  clear_cursor : bool;
  ignore_ssl_errors : bool;
  debug_mode : bool;
  begin_date : option string;
  end_date : option string;
  exposure_types : option (list string)
}.

Inductive Formatter : Type :=
| AEDDictToJSONFormatter
| AEDDictToCEFFormatter.

(** A logger is known by the arguments [common.get_logger] built it from. *)
Record Logger : Type := {
  formatter : Formatter;
  logger_destination : option string;
  logger_destination_type : string;
  logger_destination_port : Z;
  logger_destination_protocol : string
}.

(** The callables stored in a [FileEventHandlers] object. *)
Inductive error_handler : Type :=
| default_handle_error
| error_logger_error.

Inductive response_handler : Type :=
| default_handle_response
| handle_response_of (logger : Logger).

Inductive cursor_recorder : Type :=
| default_record_cursor_position
| replace_stored_insertion_timestamp.

Inductive cursor_getter : Type :=
| default_get_cursor_position
| get_stored_insertion_timestamp.

Record FileEventHandlers : Type := {
  handle_error : error_handler;
  handle_response : response_handler;
  record_cursor_position : cursor_recorder;
  get_cursor_position : cursor_getter
}.

Definition new_FileEventHandlers : FileEventHandlers :=
  {| handle_error := default_handle_error;
     handle_response := default_handle_response;
     record_cursor_position := default_record_cursor_position;
     get_cursor_position := default_get_cursor_position |}.

Record SDK : Type := {
  host_address : string;
  username : string;
  password : string
}.

(** The part of the process state and of the disk the program touches:
    the row of the cursor store and the module [py42.settings]. *)
Record World : Type := {
  stored_insertion_timestamp : option Z;
  global_exception_message_receiver : error_handler;
  verify_ssl_certs : bool;
  debug_level_DEBUG : bool
}.

(** Calls that leave the program, in the order they are made. *)
Inductive event : Type :=
| EPrint (message : string)
| EPrintUsage
| EKeyringDelete (service : string) (user : option string)
| EKeyringGet (service user : string)
| EKeyringSet (service user secret : string)
| EGetpass (prompt : string)
| EGetInput (prompt : string)
| EGetErrorLogger
| EErrorLoggerError (ex : exn)
| EDefaultHandleError (ex : exn)
| ENewFormatter (formatter : Formatter)
| EGetLogger (logger : Logger)
| ENewCursorStore
| EStoreReset
| ESdkCreate (sdk : SDK)
| EDisableWarnings
| EExtract (sdk : SDK) (handlers : FileEventHandlers)
           (min_timestamp max_timestamp : option Z)
           (exposure : option (list string))
| EWriteLine (logger : Logger) (line : string).

(** What the collaborators answer.  A timestamp is a number of
    microseconds since the epoch, the resolution of [datetime]. *)
Record Env : Type := {
  py3 : bool;
  utcnow : Z;
  convert_datetime_to_timestamp : Z -> Z;
  parse_timestamp : option string -> exn + option Z;
  int : string -> exn + Z;
  keyring_delete_password : string -> option string -> exn + unit;
  keyring_get_password : string -> string -> exn + option string;
  keyring_set_password : string -> string -> string -> exn + unit;
  getpass : string -> exn + string;
  get_input : string -> exn + string;
  get_logger : Logger -> exn + unit;
  create_using_local_account : SDK -> exn + unit;
  extractor_extract : option Z -> option Z -> option (list string) -> exn + unit;
  json_loads : string -> exn + json;
  format : Formatter -> json -> string
}.

Definition M : Type -> Type := Py World event.

Definition print (message : string) : M unit := emit (EPrint message).

Definition str_int (z : Z) : string := NilZero.string_of_int (Z.to_int z).

Definition timedelta_days (d : Z) : Z := d * 86400 * 1000000.

Definition ascii_lower (c : ascii) : ascii :=
  let n := nat_of_ascii c in
  if ((65 <=? n) && (n <=? 90))%nat then ascii_of_nat (n + 32) else c.

Section Program.
Variable env : Env.

Definition _verify_destination_args (args : Args) : M unit :=
  (if String.eqb (destination_type args) "stdout" && negb (is_None (destination args))
   then
     let msg :=
       String.append "Destination '"
         (String.append (str_opt (destination args))
            "' not applicable for stdout. Try removing '--dest' arg or change '--dest-type' to 'file' or 'server'.") in
     print msg ;; exit 1
   else ret tt) ;;
  (if String.eqb (destination_type args) "file" && is_None (destination args)
   then print "Missing file name. Try: '--dest path/to/file'." ;; exit 1
   else ret tt) ;;
  (if String.eqb (destination_type args) "server" && is_None (destination args)
   then print "Missing server URL. Try: '--dest https://syslog.example.com'." ;; exit 1
   else ret tt).

Definition _delete_stored_password (user : option string) : M unit :=
  try_except
    (emit (EKeyringDelete _SERVICE_NAME_FOR_KEYCHAIN user) ;;
     lift (keyring_delete_password env _SERVICE_NAME_FOR_KEYCHAIN user))
    (fun ex => match ex with
               | PasswordDeleteError => Some (ret tt)
               | _ => None
               end).

Definition _ignore_ssl_errors : M unit :=
  modify (fun w => {| stored_insertion_timestamp := stored_insertion_timestamp w;
                      global_exception_message_receiver := global_exception_message_receiver w;
                      verify_ssl_certs := false;
                      debug_level_DEBUG := debug_level_DEBUG w |}) ;;
  emit EDisableWarnings.

Definition _get_log_formatter (output_format : string) : M Formatter :=
  if String.eqb output_format "JSON" then
    emit (ENewFormatter AEDDictToJSONFormatter) ;; ret AEDDictToJSONFormatter
  else if String.eqb output_format "CEF" then
    emit (ENewFormatter AEDDictToCEFFormatter) ;; ret AEDDictToCEFFormatter
  else
    print (String.append "Unsupported output format " output_format) ;;
    exit 1.

Definition _get_logger (formatter : Formatter) (destination : option string)
    (destination_type : string) (destination_port : Z)
    (destination_protocol : string) : M Logger :=
  let logger :=
    {| formatter := formatter;
       logger_destination := destination;
       logger_destination_type := destination_type;
       logger_destination_port := destination_port;
       logger_destination_protocol := destination_protocol |} in
  try_except
    (emit (EGetLogger logger) ;;
     lift (get_logger env logger) ;;
     ret logger)
    (fun ex =>
       match ex with
       | AttributeError | gaierror =>
           Some (print
                   (String.append "Error with provided server destination arguments: hostname="
                      (String.append (str_opt destination)
                         (String.append ", port="
                            (String.append (str_int destination_port)
                               (String.append ", protocol="
                                  (String.append destination_protocol ".")))))) ;;
                 exit 1)
       | IOError =>
           Some (print
                   (String.append "Error with provided file path "
                      (String.append (str_opt destination) ". Try --dest path/to/file.")) ;;
                 exit 1)
       | _ => None
       end).

(** The closure [_get_response_handler] returns, applied to the text of a
    response.  [logger.info(event)] formats the record with the logger's
    formatter and writes the line to the logger's destination. *)
Definition handle_response_fn (logger : Logger) (response_text : string) : M unit :=
  response_dict <- lift (json_loads env response_text) ;;
  let file_events_key := "fileEvents" in
  present <- lift (py_in file_events_key response_dict) ;;
  if (present : bool) then
    events <- lift (py_getitem response_dict file_events_key) ;;
    items <- lift (py_iter events) ;;
    for_each items (fun ev => emit (EWriteLine logger (format env (formatter logger) ev)))
  else ret tt.

Definition _get_response_handler (logger : Logger) : response_handler :=
  handle_response_of logger.

Definition _create_handlers (args : Args) : M FileEventHandlers :=
  let handlers := new_FileEventHandlers in
  emit EGetErrorLogger ;;
  modify (fun w => {| stored_insertion_timestamp := stored_insertion_timestamp w;
                      global_exception_message_receiver := error_logger_error;
                      verify_ssl_certs := verify_ssl_certs w;
                      debug_level_DEBUG := debug_level_DEBUG w |}) ;;
  let output_format := output_format args in
  logger_formatter <- _get_log_formatter output_format ;;
  port <- lift (int env (destination_port args)) ;;
  logger <- _get_logger logger_formatter (destination args) (destination_type args)
              port (destination_protocol args) ;;
  ret {| handle_error := error_logger_error;
         handle_response := _get_response_handler logger;
         record_cursor_position := record_cursor_position handlers;
         get_cursor_position := get_cursor_position handlers |}.

(** Modelled from the spec: [AEDCursorStore.reset] of
    [c42seceventcli.aed.cursor_store], whose source is not part of this
    development.  Section 4.1: [reset()] clears all checkpoints in the
    store's scope. *)
Definition store_reset : M unit :=
  emit EStoreReset ;;
  modify (fun w => {| stored_insertion_timestamp := None;
                      global_exception_message_receiver := global_exception_message_receiver w;
                      verify_ssl_certs := verify_ssl_certs w;
                      debug_level_DEBUG := debug_level_DEBUG w |}).

(** The handlers object is updated in place; the embedding returns the
    updated object. *)
Definition _set_up_cursor_store (record_cursor clear_cursor : bool)
    (handlers : FileEventHandlers) : M FileEventHandlers :=
  if record_cursor || clear_cursor then
    emit ENewCursorStore ;;
    (if clear_cursor then store_reset else ret tt) ;;
    if record_cursor then
      ret {| handle_error := handle_error handlers;
             handle_response := handle_response handlers;
             record_cursor_position := replace_stored_insertion_timestamp;
             get_cursor_position := get_stored_insertion_timestamp |}
    else ret handlers
  else ret handlers.

Definition _exit_from_argument_error {A} (message : string) : M A :=
  print message ;;
  emit EPrintUsage ;;
  exit 1.

Definition _get_server_from_args (args : Args) : M string :=
  match c42_authority_url args with
  | None => _exit_from_argument_error "Host address not provided."
  | Some server => ret server
  end.

Definition _get_username_from_args (args : Args) : M string :=
  match c42_username args with
  | None => _exit_from_argument_error "Username not provided."
  | Some username => ret username
  end.

(** [print()]: an empty line in Python 3; in Python 2, where the module
    has no [print_function] import, the empty tuple. *)
Definition print_nothing : M unit :=
  print (if py3 env then EmptyString else "()").

Definition _get_password (username : string) : M string :=
  emit (EKeyringGet _SERVICE_NAME_FOR_KEYCHAIN username) ;;
  password <- lift (keyring_get_password env _SERVICE_NAME_FOR_KEYCHAIN username) ;;
  match password with
  | Some password => ret password
  | None =>
      try_except
        (emit (EGetpass "Code42 password: ") ;;
         password <- lift (getpass env "Code42 password: ") ;;
         emit (EGetInput "Save password to keychain? (y/n): ") ;;
         save_password <- lift (get_input env "Save password to keychain? (y/n): ") ;;
         match save_password with
         | EmptyString => raise IndexError
         | String c _ =>
             (if Ascii.eqb (ascii_lower c) "y"%char then
                emit (EKeyringSet _SERVICE_NAME_FOR_KEYCHAIN username password) ;;
                lift (keyring_set_password env _SERVICE_NAME_FOR_KEYCHAIN username password)
              else ret tt) ;;
             ret password
         end)
        (fun ex => match ex with
                   | KeyboardInterrupt => Some (print_nothing ;; exit 1)
                   | _ => None
                   end)
  end.

Definition call_handle_error (handlers : FileEventHandlers) (ex : exn) : M unit :=
  match handle_error handlers with
  | error_logger_error => emit (EErrorLoggerError ex)
  | default_handle_error => emit (EDefaultHandleError ex)
  end.

Definition _create_sdk_from_args (args : Args) (handlers : FileEventHandlers) : M SDK :=
  server <- _get_server_from_args args ;;
  username <- _get_username_from_args args ;;
  password <- _get_password username ;;
  let sdk := {| host_address := server; username := username; password := password |} in
  try_except
    (emit (ESdkCreate sdk) ;;
     lift (create_using_local_account env sdk) ;;
     ret sdk)
    (fun ex =>
       if is_Exception ex then
         Some (call_handle_error handlers ex ;;
               print "Incorrect username or password." ;;
               exit 1)
       else None).

(** [min_timestamp < boundary]: comparing [None] with a number raises
    [TypeError] in Python 3 and is true in Python 2. *)
Definition py_lt (min_timestamp : option Z) (boundary : Z) : M bool :=
  match min_timestamp with
  | Some t => ret (t <? boundary)
  | None => if py3 env then raise TypeError else ret true
  end.

Definition boundary : Z :=
  convert_datetime_to_timestamp env (utcnow env - timedelta_days 90).

Definition _parse_min_timestamp (begin_date : option string) : M (option Z) :=
  min_timestamp <- lift (parse_timestamp env begin_date) ;;
  too_old <- py_lt min_timestamp boundary ;;
  if (too_old : bool) then
    print "Argument '--begin' must be within 90 days." ;;
    exit 1
  else ret min_timestamp.

Definition _extract (args : Args) (sdk : SDK) (handlers : FileEventHandlers) : M unit :=
  min_timestamp <- _parse_min_timestamp (begin_date args) ;;
  max_timestamp <- lift (parse_timestamp env (end_date args)) ;;
  emit (EExtract sdk handlers min_timestamp max_timestamp (exposure_types args)) ;;
  lift (extractor_extract env min_timestamp max_timestamp (exposure_types args)).

(** [main], after [aed_args.get_args()] has returned [args]. *)
Definition main (args : Args) : M unit :=
  _verify_destination_args args ;;
  (if reset_password args then _delete_stored_password (c42_username args) else ret tt) ;;
  handlers <- _create_handlers args ;;
  handlers <- _set_up_cursor_store (record_cursor args) (clear_cursor args) handlers ;;
  sdk <- _create_sdk_from_args args handlers ;;
  (if ignore_ssl_errors args then _ignore_ssl_errors else ret tt) ;;
  (if debug_mode args
   then modify (fun w => {| stored_insertion_timestamp := stored_insertion_timestamp w;
                            global_exception_message_receiver := global_exception_message_receiver w;
                            verify_ssl_certs := verify_ssl_certs w;
                            debug_level_DEBUG := true |})
   else ret tt) ;;
  _extract args sdk handlers.

(** The statements of [main] that come before the call of [_extract],
    in their order; they produce the SDK and the handlers that call
    receives. *)
Definition main_setup (args : Args) : M (SDK * FileEventHandlers) :=
  _verify_destination_args args ;;
  (if reset_password args then _delete_stored_password (c42_username args) else ret tt) ;;
  handlers <- _create_handlers args ;;
  handlers <- _set_up_cursor_store (record_cursor args) (clear_cursor args) handlers ;;
  sdk <- _create_sdk_from_args args handlers ;;
  (if ignore_ssl_errors args then _ignore_ssl_errors else ret tt) ;;
  (if debug_mode args
   then modify (fun w => {| stored_insertion_timestamp := stored_insertion_timestamp w;
                            global_exception_message_receiver := global_exception_message_receiver w;
                            verify_ssl_certs := verify_ssl_certs w;
                            debug_level_DEBUG := true |})
   else ret tt) ;;
  ret (sdk, handlers).

End Program.

(** *** Observations on a trace *)

(** The call [extractor.extract(...)], the only place from which a query
    to the remote API can be issued: a trace without it has issued none.
    (What the extractor does once called is outside this program.) *)
Definition is_query (e : event) : bool :=
  match e with
  | EExtract _ _ _ _ _ => true
  | _ => false
  end.

Definition no_query (t : list event) : bool := forallb (fun e => negb (is_query e)) t.

Definition is_reset (e : event) : bool :=
  match e with
  | EStoreReset => true
  | _ => false
  end.

Definition builds_formatter_or_sink (e : event) : bool :=
  match e with
  | ENewFormatter _ | EGetLogger _ => true
  | _ => false
  end.

Definition not_query (e : event) : bool := negb (is_query e).

(** Neither a query nor the construction of a formatter or of a sink. *)
Definition not_build (e : event) : bool :=
  negb (is_query e) && negb (builds_formatter_or_sink e).

(** The logger [_create_handlers] asks for, given the formatter and the
    port it has computed. *)
Definition logger_of_args (args : Args) (f : Formatter) (port : Z) : Logger :=
  {| formatter := f;
     logger_destination := destination args;
     logger_destination_type := destination_type args;
     logger_destination_port := port;
     logger_destination_protocol := destination_protocol args |}.


(** A JSON value that has the key: an object with a field of that name. *)
Definition has_key (key : string) (v : json) : bool :=
  match v with
  | JObj fields => negb (is_None (dict_get key fields))
  | _ => false
  end.

(** Every query of the trace comes after a reset; [seen] tells whether a
    reset has already happened. *)
Fixpoint reset_before_query (seen : bool) (t : list event) : bool :=
  match t with
  | [] => true
  | e :: t' =>
      if is_query e then seen && reset_before_query seen t'
      else reset_before_query (seen || is_reset e) t'
  end.

(** *** Further observations *)

Definition is_keyring_delete (e : event) : bool :=
  match e with
  | EKeyringDelete _ _ => true
  | _ => false
  end.

Definition is_keyring_get (e : event) : bool :=
  match e with
  | EKeyringGet _ _ => true
  | _ => false
  end.

(** A call that reads, asks for, stores or uses the password. *)
Definition uses_credentials (e : event) : bool :=
  match e with
  | EKeyringGet _ _ | EKeyringSet _ _ _
  | EGetpass _ | EGetInput _ | ESdkCreate _ => true
  | _ => false
  end.

(** Neither a query nor a use of the password. *)
Definition before_login (e : event) : bool :=
  negb (is_query e) && negb (uses_credentials e).

Definition any_event (e : event) : bool := true.

(** A call that opens or resets the cursor store. *)
Definition is_store_call (e : event) : bool :=
  match e with
  | ENewCursorStore | EStoreReset => true
  | _ => false
  end.

Definition is_disable_warnings (e : event) : bool :=
  match e with
  | EDisableWarnings => true
  | _ => false
  end.

(** The call [keyring.delete_password] for the service and [user]. *)
Definition is_delete_for (user : option string) (e : event) : bool :=
  match e with
  | EKeyringDelete service account =>
      String.eqb service _SERVICE_NAME_FOR_KEYCHAIN &&
      match account, user with
      | Some a, Some u => String.eqb a u
      | None, None => true
      | _, _ => false
      end
  | _ => false
  end.

Definition is_prompt (e : event) : bool :=
  match e with
  | EGetpass _ | EGetInput _ => true
  | _ => false
  end.

(** The three combinations [_verify_destination_args] tests for. *)
Definition destination_args_conflict (args : Args) : Prop :=
  (destination_type args = "stdout" /\ destination args <> None) \/
  (destination_type args = "file" /\ destination args = None) \/
  (destination_type args = "server" /\ destination args = None).

(** The same command line with [--reset-password] given or not. *)
Definition set_reset_password (b : bool) (args : Args) : Args :=
  {| destination_type := destination_type args;
     destination := destination args;
     destination_port := destination_port args;
     destination_protocol := destination_protocol args;
     output_format := output_format args;
     reset_password := b;
     c42_username := c42_username args;
     c42_authority_url := c42_authority_url args;
     record_cursor := record_cursor args;
     clear_cursor := clear_cursor args;
     ignore_ssl_errors := ignore_ssl_errors args;
     debug_mode := debug_mode args;
     begin_date := begin_date args;
     end_date := end_date args;
     exposure_types := exposure_types args |}.

Definition password_prompt : string := "Code42 password: ".

Definition look_back_message : string :=
  "Argument '--begin' must be within 90 days.".

Definition is_look_back_rejection (e : event) : bool :=
  match e with
  | EPrint message => String.eqb message look_back_message
  | _ => false
  end.

(** Any call to the keyring. *)
Definition is_keyring_call (e : event) : bool :=
  match e with
  | EKeyringDelete _ _ | EKeyringGet _ _ | EKeyringSet _ _ _ => true
  | _ => false
  end.

(** What a run may do while the account of the command line is
    incomplete: no query, no use of the password, and no call to the
    keyring other than the deletion [--reset-password] asks for. *)
Definition allowed_without_account (args : Args) (e : event) : bool :=
  before_login e &&
  (negb (is_keyring_call e) ||
   (reset_password args && is_delete_for (c42_username args) e)).

(** How a run that does not complete can end: [exit(1)], or an exception
    nobody caught. *)
Definition stopped {A} (o : outcome A) : Prop :=
  o = SysExit 1 \/ exists ex, o = Raised ex.

Definition save_prompt : string := "Save password to keychain? (y/n): ".

End Aed.

(** ** [src/code42cli/cmds/alerts.py] *)

Module Alerts.
Import Python Python.Notations.
Local Open Scope py_scope.

Definition SEARCH_DEFAULT_HEADER : list (string * string) :=
  [ ("name", "RuleName");
    ("actor", "Username");
    ("createdAt", "ObservedDate");
    ("state", "Status");
    ("severity", "Severity");
    ("description", "Description") ].

(** A search filter: those the option callbacks put in
    [cli_state.search_filters], and the time range on [DateObserved]. *)
Inductive Filter : Type :=
| OptionFilter (term : string)
| DateObservedRange (begin_ end_ : option Z).

Record OutputFormatter : Type := {
  output_format : string;
  output_header : option (list (string * string))
}.

(** What an extractor is asked to do; [use_or_query] is the attribute set
    on it before the call. *)
Inductive Extraction : Type :=
| ExtractAdvanced (use_or_query : bool) (advanced_query : string)
| Extract (use_or_query : bool) (filters : list Filter).

Record CLIState : Type := {
  profile_name : string
}.

(** The mutable objects the commands share: the module global
    [errors.ERRORED], the attribute [TOTAL_EVENTS] of the handlers object,
    the list [cli_state.search_filters] and the attribute
    [state.cursor_getter]. *)
Record World : Type := {
  ERRORED : bool;
  TOTAL_EVENTS : N;
  search_filters : list Filter;
  cursor_getter : bool
}.

Inductive event : Type :=
| ANewCursorStore (profile : string)
| AStoreDelete (profile checkpoint : string)
| AGetSdk
| ACreateHandlers (cursor : option string) (use_checkpoint : option string)
                  (formatter : OutputFormatter) (force_pager : bool)
| AGetLoggerForServer (hostname protocol format : string)
| ACreateSendToHandlers (cursor : option string) (use_checkpoint : option string)
                        (hostname protocol format : string)
| ARunExtractor (request : Extraction)
| AEcho (message : string).

Record Env : Type := {
  state_sdk : exn + unit;
  try_get_default_header :
    bool -> list (string * string) -> string -> exn + option (list (string * string));
  create_handlers : exn + unit;
  get_logger_for_server : string -> string -> string -> exn + unit;
  create_send_to_handlers : exn + unit;
  create_time_range_filter : option Z -> option Z -> exn + Filter;
  (** The values the extractor leaves in [handlers.TOTAL_EVENTS] and in
      [errors.ERRORED], and the exception it lets through, if any. *)
  run_extractor : Extraction -> N * bool * option exn
}.

Definition M : Type -> Type := Py World event.

(** Truth value of an optional string, number or timestamp. *)
Definition truthy_str (o : option string) : bool :=
  match o with
  | Some (String _ _) => true
  | _ => false
  end.

Definition truthy_ts (o : option Z) : bool :=
  match o with
  | Some t => negb (t =? 0)
  | None => false
  end.

Definition no_results_message : string := "No results found.".

Section Program.
Variable env : Env.

(** Modelled from the spec: [handle_no_events] of
    [code42cli.cmds.search.extraction], which is not among the sources.
    Sections 4.2 and 7: a run that yielded zero events and met no error is
    reported as no results; nothing is reported otherwise. *)
Definition handle_no_events (no_events : bool) : M unit :=
  if no_events then emit (AEcho no_results_message) else ret tt.

Definition _get_alert_cursor_store (profile : string) : M string :=
  emit (ANewCursorStore profile) ;;
  ret profile.

(** The callback of the command group, run before each of its commands. *)
Definition alerts (state : CLIState) : M unit :=
  modify (fun w => {| ERRORED := ERRORED w;
                      TOTAL_EVENTS := TOTAL_EVENTS w;
                      search_filters := search_filters w;
                      cursor_getter := true |}).

Definition clear_checkpoint (state : CLIState) (checkpoint_name : string) : M unit :=
  store <- _get_alert_cursor_store (profile_name state) ;;
  emit (AStoreDelete store checkpoint_name).

Definition get_sdk : M unit :=
  emit AGetSdk ;;
  lift (state_sdk env).

Definition extractor_call (request : Extraction) : M unit :=
  emit (ARunExtractor request) ;;
  let '(total, errored, raised) := run_extractor env request in
  modify (fun w => {| ERRORED := errored;
                      TOTAL_EVENTS := total;
                      search_filters := search_filters w;
                      cursor_getter := cursor_getter w |}) ;;
  match raised with
  | Some ex => raise ex
  | None => ret tt
  end.

Definition _call_extractor (cli_state : CLIState) (begin_ end_ : option Z)
    (or_query : bool) (advanced_query : option string) : M unit :=
  get_sdk ;;
  match advanced_query with
  | Some (String c q) => extractor_call (ExtractAdvanced or_query (String c q))
  | _ =>
      (if truthy_ts begin_ || truthy_ts end_ then
         time_range <- lift (create_time_range_filter env begin_ end_) ;;
         modify (fun w => {| ERRORED := ERRORED w;
                             TOTAL_EVENTS := TOTAL_EVENTS w;
                             search_filters := search_filters w ++ [time_range];
                             cursor_getter := cursor_getter w |})
       else ret tt) ;;
      filters <- gets search_filters ;;
      extractor_call (Extract or_query filters)
  end.

Definition no_events_flag : M bool :=
  total <- gets TOTAL_EVENTS ;;
  errored <- gets ERRORED ;;
  ret ((total =? 0)%N && negb errored).

Definition search (cli_state : CLIState) (format : string) (begin_ end_ : option Z)
    (advanced_query use_checkpoint : option string) (or_query include_all : bool)
    : M unit :=
  output_header <- lift (try_get_default_header env include_all SEARCH_DEFAULT_HEADER format) ;;
  let formatter := {| output_format := format; output_header := output_header |} in
  cursor <- (if truthy_str use_checkpoint
             then store <- _get_alert_cursor_store (profile_name cli_state) ;; ret (Some store)
             else ret None) ;;
  get_sdk ;;
  emit (ACreateHandlers cursor use_checkpoint formatter include_all) ;;
  lift (create_handlers env) ;;
  _call_extractor cli_state begin_ end_ or_query advanced_query ;;
  flag <- no_events_flag ;;
  handle_no_events flag.

Definition send_to (cli_state : CLIState) (format hostname protocol : string)
    (begin_ end_ : option Z) (advanced_query use_checkpoint : option string)
    (or_query : bool) : M unit :=
  emit (AGetLoggerForServer hostname protocol format) ;;
  lift (get_logger_for_server env hostname protocol format) ;;
  cursor <- (if truthy_str use_checkpoint
             then store <- _get_alert_cursor_store (profile_name cli_state) ;; ret (Some store)
             else ret None) ;;
  get_sdk ;;
  emit (ACreateSendToHandlers cursor use_checkpoint hostname protocol format) ;;
  lift (create_send_to_handlers env) ;;
  _call_extractor cli_state begin_ end_ or_query advanced_query ;;
  flag <- no_events_flag ;;
  handle_no_events flag.

End Program.

(** [click] runs the callback of the group, then the command. *)
Definition invoke {A} (state : CLIState) (command : M A) : M A :=
  alerts state ;; command.

(** The run state a command reads when the extractor has returned. *)
Record RunResult : Type := {
  total_events : N;
  had_errors : bool
}.

Definition run_result (w : World) : RunResult :=
  {| total_events := TOTAL_EVENTS w; had_errors := ERRORED w |}.

Definition is_query (e : event) : bool :=
  match e with
  | ARunExtractor _ => true
  | _ => false
  end.

Definition is_delete_of (checkpoint : string) (e : event) : bool :=
  match e with
  | AStoreDelete _ name => String.eqb name checkpoint
  | _ => false
  end.

(** A call that opens a cursor store or creates the handlers. *)
Definition is_cursor_setup (e : event) : bool :=
  match e with
  | ANewCursorStore _ | ACreateHandlers _ _ _ _
  | ACreateSendToHandlers _ _ _ _ _ => true
  | _ => false
  end.

Definition reports_no_results (t : list event) : bool :=
  existsb (fun e => match e with
                    | AEcho m => String.eqb m no_results_message
                    | _ => false
                    end) t.

End Alerts.

(** * Sample runs

    Concrete collaborators and command lines, used to run the embedding. *)

Module Samples.
Import Python Json.

Definition quote : string := String "034"%char EmptyString.

Fixpoint assoc {A} (key : string) (table : list (string * A)) : option A :=
  match table with
  | [] => None
  | (k, v) :: rest => if String.eqb k key then Some v else assoc key rest
  end.

Module AedRun.
Import Aed.

(** 2020-09-13 12:26:40 UTC. *)
Definition now : Z := 1600000000000000.

(** Midnight UTC of a few days: 91.5, 89.5 and 12.5 days before [now]. *)
Definition dates : list (string * Z) :=
  [ ("2020-06-14", 1592092800000000);
    ("2020-06-16", 1592265600000000);
    ("2020-09-01", 1598918400000000) ].

Definition sample_parse_timestamp (date : option string) : exn + option Z :=
  match date with
  | None => inr None
  | Some d =>
      match assoc d dates with
      | Some t => inr (Some t)
      | None => inl ValueError
      end
  end.

Definition record (id : string) : json := JObj [("eventId", JStr id)].

(** [{"fileEvents": [{"eventId": "e1"}, {"eventId": "e2"}]}] *)
Definition page_text : string :=
  String.concat quote
    ["{"; "fileEvents"; ": [{"; "eventId"; ": "; "e1"; "}, {"; "eventId"; ": "; "e2"; "}]}"].

Definition bodies : list (string * json) :=
  [ (page_text, JObj [("fileEvents", JArr [record "e1"; record "e2"])]);
    ("{}", JObj []);
    ("null", JNull) ].

Definition sample_json_loads (text : string) : exn + json :=
  match assoc text bodies with
  | Some v => inr v
  | None => inl ValueError
  end.

Definition sample_format (f : Formatter) (ev : json) : string :=
  String.append
    (match f with
     | AEDDictToJSONFormatter => "json "
     | AEDDictToCEFFormatter => "cef "
     end)
    (match ev with
     | JObj fields =>
         match dict_get "eventId" fields with
         | Some (JStr id) => id
         | _ => "?"
         end
     | _ => "?"
     end).

Definition sample_get_logger (logger : Logger) : exn + unit :=
  match logger_destination logger with
  | Some d =>
      if String.eqb d "no-such-host.invalid" then inl gaierror
      else if String.eqb d "/proc/denied" then inl IOError
      else inr tt
  | None => inr tt
  end.

Definition sample_env : Env :=
  {| py3 := true;
     utcnow := now;
     convert_datetime_to_timestamp := fun d => d;
     parse_timestamp := sample_parse_timestamp;
     int := fun s => if String.eqb s "514" then inr 514 else inl ValueError;
     keyring_delete_password := fun _ _ => inr tt;
     keyring_get_password := fun _ _ => inr (Some "secret");
     keyring_set_password := fun _ _ _ => inr tt;
     getpass := fun _ => inr "secret";
     get_input := fun _ => inr "n";
     get_logger := sample_get_logger;
     create_using_local_account := fun _ => inr tt;
     extractor_extract := fun _ _ _ => inr tt;
     json_loads := sample_json_loads;
     format := sample_format |}.

Definition sample_args (destination_type : string) (destination : option string)
    (output_format : string) (record_cursor clear_cursor : bool)
    (begin_date end_date : option string) : Args :=
  {| destination_type := destination_type;
     destination := destination;
     destination_port := "514";
     destination_protocol := "TCP";
     output_format := output_format;
     reset_password := false;
     c42_username := Some "analyst@example.com";
     c42_authority_url := Some "https://console.example.com";
     record_cursor := record_cursor;
     clear_cursor := clear_cursor;
     ignore_ssl_errors := false;
     debug_mode := false;
     begin_date := begin_date;
     end_date := end_date;
     exposure_types := None |}.

Definition stdout_args (record_cursor clear_cursor : bool)
    (begin_date end_date : option string) : Args :=
  sample_args "stdout" None "JSON" record_cursor clear_cursor begin_date end_date.

(** [--begin] 91.5 days and 89.5 days before [now]. *)
Definition old_begin_args : Args :=
  stdout_args false false (Some "2020-06-14") None.

Definition recent_begin_args : Args :=
  stdout_args false false (Some "2020-06-16") None.

(** [--end] eleven weeks before [--begin]. *)
Definition inverted_window_args : Args :=
  stdout_args false false (Some "2020-09-01") (Some "2020-06-16").

Definition clear_cursor_args : Args :=
  stdout_args true true (Some "2020-06-16") None.




Definition lowercase_format_args : Args :=
  sample_args "stdout" None "json" false false (Some "2020-06-16") None.

(** [--dest-type file] without [--dest], with [--reset-password]. *)
Definition file_without_destination_args : Args :=
  set_reset_password true
    (sample_args "file" None "JSON" false false (Some "2020-06-16") None).

Definition no_begin_args : Args :=
  stdout_args false false None None.

Definition reset_password_args : Args :=
  set_reset_password true recent_begin_args.

(** No [--username]. *)
Definition anonymous_args : Args :=
  {| destination_type := "stdout";
     destination := None;
     destination_port := "514";
     destination_protocol := "TCP";
     output_format := "JSON";
     reset_password := true;
     c42_username := None;
     c42_authority_url := Some "https://console.example.com";
     record_cursor := false;
     clear_cursor := false;
     ignore_ssl_errors := false;
     debug_mode := false;
     begin_date := Some "2020-06-16";
     end_date := None;
     exposure_types := None |}.

(** The collaborators of [sample_env], with every body parsed to [v]. *)
Definition parsing_env (v : json) : Env :=
  {| py3 := true;
     utcnow := now;
     convert_datetime_to_timestamp := fun d => d;
     parse_timestamp := sample_parse_timestamp;
     int := fun s => if String.eqb s "514" then inr 514 else inl ValueError;
     keyring_delete_password := fun _ _ => inr tt;
     keyring_get_password := fun _ _ => inr (Some "secret");
     keyring_set_password := fun _ _ _ => inr tt;
     getpass := fun _ => inr "secret";
     get_input := fun _ => inr "n";
     get_logger := sample_get_logger;
     create_using_local_account := fun _ => inr tt;
     extractor_extract := fun _ _ _ => inr tt;
     json_loads := fun _ => inr v;
     format := sample_format |}.

(** The collaborators of [sample_env], except that the keyring holds no
    password, the user types one and answers the save prompt with
    [answer], and the login then fails with [failure], if any. *)
Definition prompting_env (answer : exn + string) (failure : option exn) : Env :=
  {| py3 := true;
     utcnow := now;
     convert_datetime_to_timestamp := fun d => d;
     parse_timestamp := sample_parse_timestamp;
     int := fun s => if String.eqb s "514" then inr 514 else inl ValueError;
     keyring_delete_password := fun _ _ => inl PasswordDeleteError;
     keyring_get_password := fun _ _ => inr None;
     keyring_set_password := fun _ _ _ => inr tt;
     getpass := fun _ => inr "typed";
     get_input := fun _ => answer;
     get_logger := sample_get_logger;
     create_using_local_account :=
       fun _ => match failure with Some ex => inl ex | None => inr tt end;
     extractor_extract := fun _ _ _ => inr tt;
     json_loads := sample_json_loads;
     format := sample_format |}.

Definition sample_world : World :=
  {| stored_insertion_timestamp := Some 1598000000000000;
     global_exception_message_receiver := default_handle_error;
     verify_ssl_certs := true;
     debug_level_DEBUG := false |}.

Definition sample_sdk : SDK :=
  {| host_address := "https://console.example.com";
     username := "analyst@example.com";
     password := "secret" |}.

Definition stdout_logger : Logger :=
  {| formatter := AEDDictToJSONFormatter;
     logger_destination := None;
     logger_destination_type := "stdout";
     logger_destination_port := 514;
     logger_destination_protocol := "TCP" |}.

Definition sample_handlers : FileEventHandlers :=
  {| handle_error := error_logger_error;
     handle_response := handle_response_of stdout_logger;
     record_cursor_position := default_record_cursor_position;
     get_cursor_position := default_get_cursor_position |}.

(** The state and the calls of a setup that succeeds on [sample_env] for
    the [stdout] command lines. *)
Definition logged_in_world : World :=
  {| stored_insertion_timestamp := Some 1598000000000000;
     global_exception_message_receiver := error_logger_error;
     verify_ssl_certs := true;
     debug_level_DEBUG := false |}.

Definition setup_trace : list event :=
  [EGetErrorLogger; ENewFormatter AEDDictToJSONFormatter; EGetLogger stdout_logger;
   EKeyringGet _SERVICE_NAME_FOR_KEYCHAIN "analyst@example.com";
   ESdkCreate sample_sdk].

Definition typed_sdk : SDK :=
  {| host_address := "https://console.example.com";
     username := "analyst@example.com";
     password := "typed" |}.


End AedRun.

Module AlertsRun.
Import Alerts.

Definition sample_env (total : N) (errored : bool) : Env :=
  {| state_sdk := inr tt;
     try_get_default_header := fun include_all header _ =>
                                 inr (if include_all then None else Some header);
     create_handlers := inr tt;
     get_logger_for_server := fun _ _ _ => inr tt;
     create_send_to_handlers := inr tt;
     create_time_range_filter := fun b e => inr (DateObservedRange b e);
     run_extractor := fun _ => (total, errored, None) |}.

Definition sample_state : CLIState := {| profile_name := "default" |}.

Definition sample_world : World :=
  {| ERRORED := false;
     TOTAL_EVENTS := 0;
     search_filters := [OptionFilter "severity=HIGH"];
     cursor_getter := false |}.

Definition since_june : option Z := Some 1592265600000000.

(** A search whose extractor leaves [total] events and the flag [errored]. *)
Definition search_run (total : N) (errored : bool) : outcome unit * World * list event :=
  search (sample_env total errored) sample_state "TABLE" None None None None
    false false sample_world.

End AlertsRun.

End Samples.

(** * Properties *)

(** ** Laws of the monad *)

Section MonadFacts.
Import Python.
Context {W E : Type}.

Lemma bind_run {A B} (c : Py W E A) (k : A -> Py W E B) (w : W) :
  bind c k w =
  match c w with
  | (Normal a, w1, t1) => (result (k a w1), world (k a w1), t1 ++ trace (k a w1))
  | (SysExit n, w1, t1) => (SysExit n, w1, t1)
  | (Raised e, w1, t1) => (Raised e, w1, t1)
  end.
Proof.
  unfold bind, result, world, trace.
  destruct (c w) as [[[a | n | e] w1] t1]; try reflexivity.
  destruct (k a w1) as [[o w2] t2]; reflexivity.
Qed.

Lemma for_each_emit {A} (f : A -> E) (xs : list A) (w : W) :
  for_each xs (fun x => emit (f x)) w = (Normal tt, w, map f xs).
Proof.
  induction xs as [| x xs IH]; simpl.
  - reflexivity.
  - unfold bind, emit in *. rewrite IH. reflexivity.
Qed.

Lemma quiet_ret {A} p (a : A) : quiet p (@ret W E A a).
Proof. intro w; simpl; auto. Qed.

Lemma quiet_emit p (e : E) : p e = true -> quiet p (@emit W E e).
Proof. intros H w; simpl; rewrite H; auto. Qed.

Lemma quiet_exit1 {A} p : quiet p (@exit W E A 1).
Proof. intro w; simpl; auto. Qed.

Lemma quiet_raise {A} p ex : quiet p (@raise W E A ex).
Proof. intro w; simpl; auto. Qed.

Lemma quiet_lift {A} p (r : exn + A) : quiet p (@lift W E A r).
Proof. destruct r; [apply quiet_raise | apply quiet_ret]. Qed.

Lemma quiet_modify p (f : W -> W) : quiet p (@modify W E f).
Proof. intro w; simpl; auto. Qed.

Lemma quiet_gets {A} p (f : W -> A) : quiet p (@gets W E A f).
Proof. intro w; simpl; auto. Qed.

Lemma quiet_bind {A B} p (c : Py W E A) (k : A -> Py W E B) :
  quiet p c -> (forall a, quiet p (k a)) -> quiet p (bind c k).
Proof.
  intros Hc Hk w. rewrite bind_run.
  specialize (Hc w). destruct (c w) as [[[a | n | e] w1] t1]; simpl in *; auto.
  destruct (Hk a w1) as [Ht Hs]. destruct Hc as [Hc _].
  rewrite forallb_app, Hc, Ht. auto.
Qed.

(** What follows a computation that never completes does not run. *)
Lemma quiet_bind_dead {A B} p (c : Py W E A) (k : A -> Py W E B) :
  quiet p c -> never_completes c -> quiet p (bind c k).
Proof.
  intros Hc Hn w. rewrite bind_run.
  specialize (Hc w). specialize (Hn w).
  destruct (c w) as [[[a | n | e] w1] t1]; simpl in *; auto; discriminate.
Qed.

Lemma quiet_try_except {A} p (c : Py W E A) (h : exn -> option (Py W E A)) :
  quiet p c -> (forall ex k, h ex = Some k -> quiet p k) -> quiet p (try_except c h).
Proof.
  intros Hc Hh w. unfold try_except.
  specialize (Hc w). destruct (c w) as [[[a | n | e] w1] t1]; simpl in *; auto.
  destruct (h e) as [k |] eqn:Hk; simpl; auto.
  destruct (Hh e k Hk w1) as [Ht Hs]. destruct Hc as [Hc _].
  destruct (k w1) as [[o w2] t2]; simpl in *.
  rewrite forallb_app, Hc, Ht. auto.
Qed.

Lemma never_completes_bind_l {A B} (c : Py W E A) (k : A -> Py W E B) :
  never_completes c -> never_completes (bind c k).
Proof.
  intros Hn w. rewrite bind_run. specialize (Hn w).
  destruct (c w) as [[[a | n | e] w1] t1]; simpl in *; auto; discriminate.
Qed.

Lemma never_completes_bind_r {A B} (c : Py W E A) (k : A -> Py W E B) :
  (forall a, never_completes (k a)) -> never_completes (bind c k).
Proof.
  intros Hk w. rewrite bind_run.
  destruct (c w) as [[[a | n | e] w1] t1]; simpl; auto.
  apply (Hk a w1).
Qed.

Lemma never_completes_status {A} p (c : Py W E A) w :
  quiet p c -> never_completes c -> exit_status (result (c w)) = 1.
Proof.
  intros Hq Hn. destruct (Hq w) as [_ [H | H]]; auto.
  rewrite (Hn w) in H. discriminate.
Qed.

End MonadFacts.

Create HintDb quiet.

#[local] Hint Resolve quiet_ret quiet_exit1 quiet_raise quiet_lift quiet_modify
  quiet_gets : quiet.

(** ** The [extract-aed] command *)

Section AedFacts.
Import Python Json Aed.
Variable env : Env.

Ltac handler_cases :=
  let ex := fresh "ex" in
  let k := fresh "k" in
  let H := fresh "H" in
  intros ex k H; destruct ex; simpl in H; try discriminate;
  try (destruct (is_Exception _); try discriminate);
  injection H as <-.

Ltac quiet_step :=
  first
    [ apply quiet_bind; [| intro]
    | apply quiet_try_except; [| handler_cases]
    | apply quiet_emit; reflexivity
    | solve [auto with quiet]
    | match goal with
      | |- quiet _ (if ?b then _ else _) => destruct b
      | |- quiet _ (match ?x with _ => _ end) => destruct x
      end ].

Ltac quiet_tac := repeat quiet_step.

Lemma verify_quiet args : quiet not_build (_verify_destination_args args).
Proof. unfold _verify_destination_args, print. quiet_tac. Qed.

Lemma delete_quiet user : quiet not_build (_delete_stored_password env user).
Proof. unfold _delete_stored_password. quiet_tac. Qed.

Lemma not_build_not_query {A} (c : M A) : quiet not_build c -> quiet not_query c.
Proof.
  intros H w. destruct (H w) as [Ht Hs]. split; auto.
  rewrite forallb_forall in *. intros e He. specialize (Ht e He).
  unfold not_build in Ht. apply andb_prop in Ht. tauto.
Qed.

Lemma create_handlers_quiet args : quiet not_query (_create_handlers env args).
Proof.
  unfold _create_handlers, _get_log_formatter, _get_logger, print. quiet_tac.
Qed.

Lemma set_up_cursor_store_quiet rc cc h :
  quiet not_query (_set_up_cursor_store rc cc h).
Proof. unfold _set_up_cursor_store, store_reset. quiet_tac. Qed.

Lemma create_sdk_quiet args h : quiet not_query (_create_sdk_from_args env args h).
Proof.
  unfold _create_sdk_from_args, _get_server_from_args, _get_username_from_args,
    _exit_from_argument_error, _get_password, call_handle_error, print.
  quiet_tac.
Qed.

Lemma ignore_ssl_quiet : quiet not_query _ignore_ssl_errors.
Proof. unfold _ignore_ssl_errors. quiet_tac. Qed.

(** *** Where the events of a sequence come from *)

Lemma in_trace_bind {A B} (c : M A) (k : A -> M B) (w : World) (e : event) :
  In e (trace (bind c k w)) ->
  In e (trace (c w)) \/
  exists a w1 t1, c w = (Normal a, w1, t1) /\ In e (trace (k a w1)).
Proof.
  rewrite bind_run. destruct (c w) as [[[a | n | ex] w1] t1]; simpl; auto.
  intro H. apply in_app_or in H. destruct H as [H | H]; auto.
  right. exists a, w1, t1. auto.
Qed.

Lemma quiet_no_query {A} (c : M A) (w : World) (e : event) :
  quiet not_query c -> In e (trace (c w)) -> is_query e = false.
Proof.
  intros Hq He. destruct (Hq w) as [Ht _].
  rewrite forallb_forall in Ht. specialize (Ht e He).
  unfold not_query in Ht. destruct (is_query e); auto; discriminate.
Qed.

Lemma quiet_no_query_trace {A} (c : M A) (w : World) :
  quiet not_query c -> no_query (trace (c w)) = true.
Proof. intro Hq. destruct (Hq w) as [Ht _]. exact Ht. Qed.

(** *** Resets and queries *)

Lemma reset_before_query_seen (t : list event) : reset_before_query true t = true.
Proof.
  induction t as [| e t IH]; simpl; auto.
  destruct (is_query e); simpl; auto.
Qed.

Lemma reset_before_query_quiet (seen : bool) (t1 t2 : list event) :
  forallb not_query t1 = true ->
  reset_before_query false t2 = true ->
  reset_before_query seen (t1 ++ t2) = true.
Proof.
  revert seen. induction t1 as [| e t1 IH]; simpl; intros seen H1 H2.
  - destruct seen; auto using reset_before_query_seen.
  - apply andb_prop in H1. destruct H1 as [He H1].
    unfold not_query in He. destruct (is_query e); try discriminate.
    apply IH; auto.
Qed.

Lemma reset_before_query_sound (t : list event) (seen : bool) :
  reset_before_query seen t = true ->
  forall pre e post,
    t = pre ++ e :: post -> is_query e = true ->
    seen = true \/ In EStoreReset pre.
Proof.
  revert seen. induction t as [| x t IH]; intros seen H pre e post Heq Hq.
  - destruct pre; discriminate.
  - destruct pre as [| y pre]; simpl in Heq; injection Heq as -> ->.
    + simpl in H. rewrite Hq in H. apply andb_prop in H. tauto.
    + simpl in H. destruct (is_query y).
      * apply andb_prop in H. destruct H as [_ H].
        destruct (IH _ H pre e post eq_refl Hq); auto. right. now right.
      * destruct (IH _ H pre e post eq_refl Hq) as [Hs | Hin].
        -- apply orb_prop in Hs. destruct Hs as [Hs | Hs]; auto.
           right. left. destruct y; simpl in Hs; try discriminate. reflexivity.
        -- right. now right.
Qed.

(** *** The stages of [main] one by one *)

Lemma set_up_cursor_store_clear rc h w :
  exists h' w',
    _set_up_cursor_store rc true h w = (Normal h', w', [ENewCursorStore; EStoreReset]).
Proof.
  unfold _set_up_cursor_store. rewrite orb_true_r.
  destruct rc; cbv; eauto.
Qed.


Lemma parse_min_timestamp_old begin_date t w :
  parse_timestamp env begin_date = inr (Some t) ->
  t < boundary env ->
  _parse_min_timestamp env begin_date w =
  (SysExit 1, w, [EPrint "Argument '--begin' must be within 90 days."]).
Proof.
  intros Hp Hlt. apply Z.ltb_lt in Hlt.
  unfold _parse_min_timestamp, py_lt, bind, lift, ret, print, emit, exit.
  rewrite Hp. simpl. rewrite Hlt. reflexivity.
Qed.

Lemma parse_min_timestamp_recent begin_date t w :
  parse_timestamp env begin_date = inr (Some t) ->
  boundary env <= t ->
  _parse_min_timestamp env begin_date w = (Normal (Some t), w, []).
Proof.
  intros Hp Hle. apply Z.ltb_ge in Hle.
  unfold _parse_min_timestamp, py_lt, bind, lift, ret.
  rewrite Hp. simpl. rewrite Hle. reflexivity.
Qed.

Lemma extract_old args sdk h t w :
  parse_timestamp env (begin_date args) = inr (Some t) ->
  t < boundary env ->
  _extract env args sdk h w =
  (SysExit 1, w, [EPrint "Argument '--begin' must be within 90 days."]).
Proof.
  intros Hp Hlt. unfold _extract. rewrite bind_run.
  rewrite (parse_min_timestamp_old _ _ _ Hp Hlt). reflexivity.
Qed.

Lemma extract_recent args sdk h t mx w :
  parse_timestamp env (begin_date args) = inr (Some t) ->
  boundary env <= t ->
  parse_timestamp env (end_date args) = inr mx ->
  _extract env args sdk h w =
  (match extractor_extract env (Some t) mx (exposure_types args) with
   | inl ex => Raised ex
   | inr u => Normal u
   end,
   w, [EExtract sdk h (Some t) mx (exposure_types args)]).
Proof.
  intros Hp Hle Hm. unfold _extract. rewrite bind_run.
  rewrite (parse_min_timestamp_recent _ _ _ Hp Hle).
  unfold bind, lift, emit, ret, raise, result, world, trace. simpl. rewrite Hm.
  destruct (extractor_extract env (Some t) mx (exposure_types args)); reflexivity.
Qed.

(** The only query of [_extract] carries the objects it was given and the
    timestamp [--begin] resolved to, which passed the look-back check. *)
Lemma extract_query args sdk h w e :
  In e (trace (_extract env args sdk h w)) -> is_query e = true ->
  exists mn mx,
    e = EExtract sdk h mn mx (exposure_types args) /\
    parse_timestamp env (begin_date args) = inr mn /\
    parse_timestamp env (end_date args) = inr mx /\
    (forall t, mn = Some t -> boundary env <= t).
Proof.
  unfold _extract, _parse_min_timestamp, py_lt, bind, lift, ret, raise, print,
    emit, exit, trace.
  destruct (parse_timestamp env (begin_date args)) as [ex | [t |]] eqn:Hp; simpl;
    try tauto.
  - destruct (t <? boundary env) eqn:Hlt; simpl.
    + intros [<- | []]; discriminate.
    + destruct (parse_timestamp env (end_date args)) as [ex | mx] eqn:Hm; simpl;
        try tauto.
      destruct (extractor_extract env (Some t) mx (exposure_types args)); simpl;
        (intros [<- | []] _; exists (Some t), mx; repeat split; auto;
         intros t' Ht; injection Ht as <-; now apply Z.ltb_ge).
  - destruct (py3 env); simpl; try tauto.
    intros [<- | []]; discriminate.
Qed.

Lemma main_quiet args :
  (forall sdk h, quiet not_query (_extract env args sdk h)) ->
  quiet not_query (main env args).
Proof.
  intro He. unfold main.
  apply quiet_bind; [apply not_build_not_query, verify_quiet | intros _].
  apply quiet_bind;
    [destruct (reset_password args);
       [apply not_build_not_query, delete_quiet | apply quiet_ret] | intros _].
  apply quiet_bind; [apply create_handlers_quiet | intro h].
  apply quiet_bind; [apply set_up_cursor_store_quiet | intro h'].
  apply quiet_bind; [apply create_sdk_quiet | intro sdk].
  apply quiet_bind;
    [destruct (ignore_ssl_errors args); [apply ignore_ssl_quiet | apply quiet_ret]
    | intros _].
  apply quiet_bind;
    [destruct (debug_mode args); [apply quiet_modify | apply quiet_ret] | intros _].
  apply He.
Qed.

Lemma main_never_completes args :
  (forall sdk h, never_completes (_extract env args sdk h)) ->
  never_completes (main env args).
Proof.
  intro He. unfold main.
  do 7 (apply never_completes_bind_r; intro).
  apply He.
Qed.

Lemma main_old_begin_rejected args w t :
  parse_timestamp env (begin_date args) = inr (Some t) ->
  t < boundary env ->
  exit_status (result (main env args w)) = 1 /\
  no_query (trace (main env args w)) = true.
Proof.
  intros Hp Hlt.
  assert (Hq : quiet not_query (main env args)).
  { apply main_quiet. intros sdk h w'. rewrite (extract_old _ _ _ _ _ Hp Hlt).
    simpl. auto. }
  assert (Hn : never_completes (main env args)).
  { apply main_never_completes. intros sdk h w'.
    rewrite (extract_old _ _ _ _ _ Hp Hlt). reflexivity. }
  split.
  - apply (never_completes_status _ _ _ Hq Hn).
  - apply quiet_no_query_trace, Hq.
Qed.

End AedFacts.

(** ** [main] as its setup followed by [_extract] *)

Section SequenceFacts.
Import Python.
Context {W E : Type}.

Lemma bind_assoc {A B C} (c : Py W E A) (f : A -> Py W E B) (g : B -> Py W E C)
    (w : W) :
  bind (bind c f) g w = bind c (fun a => bind (f a) g) w.
Proof.
  unfold bind.
  destruct (c w) as [[[a | n | ex] w1] t1]; try reflexivity.
  destruct (f a w1) as [[[b | n | ex] w2] t2]; try reflexivity.
  destruct (g b w2) as [[o w3] t3]. rewrite app_assoc. reflexivity.
Qed.

Lemma bind_ext {A B} (c : Py W E A) (k k' : A -> Py W E B) (w : W) :
  (forall a w', k a w' = k' a w') -> bind c k w = bind c k' w.
Proof.
  intro H. unfold bind.
  destruct (c w) as [[[a | n | ex] w1] t1]; try reflexivity.
  rewrite H. reflexivity.
Qed.

Lemma bind_ret_l {A B} (a : A) (k : A -> Py W E B) (w : W) :
  bind (ret a) k w = k a w.
Proof.
  unfold bind, ret. destruct (k a w) as [[o w1] t1]. reflexivity.
Qed.

Lemma not_completed_stopped {A} (p : E -> bool) (c : Py W E A) (w : W) :
  quiet p c ->
  completed (result (c w)) = false ->
  result (c w) = SysExit 1 \/ exists ex, result (c w) = Raised ex.
Proof.
  intros Hq Hn. destruct (Hq w) as [_ Hs].
  destruct (result (c w)) as [a | n | ex]; simpl in *.
  - discriminate.
  - destruct Hs as [Hs | Hs]; [discriminate | subst; auto].
  - eauto.
Qed.

End SequenceFacts.

Section AedSetupFacts.
Import Python Json Aed.
Variable env : Env.

Lemma main_is_setup_then_extract (args : Args) (w : World) :
  main env args w =
  bind (main_setup env args) (fun p => _extract env args (fst p) (snd p)) w.
Proof.
  symmetry. unfold main, main_setup.
  do 7 (etransitivity; [apply bind_assoc |]; apply bind_ext; intros ? ?).
  etransitivity; [apply bind_ret_l | reflexivity].
Qed.

Lemma main_setup_quiet (args : Args) : quiet not_query (main_setup env args).
Proof.
  unfold main_setup.
  apply quiet_bind; [apply not_build_not_query, verify_quiet | intros _].
  apply quiet_bind;
    [destruct (reset_password args);
       [apply not_build_not_query, delete_quiet | apply quiet_ret] | intros _].
  apply quiet_bind; [apply create_handlers_quiet | intro h].
  apply quiet_bind; [apply set_up_cursor_store_quiet | intro h'].
  apply quiet_bind; [apply create_sdk_quiet | intro sdk].
  apply quiet_bind;
    [destruct (ignore_ssl_errors args); [apply ignore_ssl_quiet | apply quiet_ret]
    | intros _].
  apply quiet_bind;
    [destruct (debug_mode args); [apply quiet_modify | apply quiet_ret] | intros _].
  apply quiet_ret.
Qed.

Ltac handler_cases :=
  let ex := fresh "ex" in
  let k := fresh "k" in
  let H := fresh "H" in
  intros ex k H; destruct ex; simpl in H; try discriminate;
  try (destruct (is_Exception _); try discriminate);
  injection H as <-.

Ltac quiet_step :=
  first
    [ apply quiet_bind; [| intro]
    | apply quiet_try_except; [| handler_cases]
    | apply quiet_emit; reflexivity
    | solve [auto with quiet]
    | match goal with
      | |- quiet _ (if ?b then _ else _) => destruct b
      | |- quiet _ (match ?x with _ => _ end) => destruct x
      end ].

(** No stage of the setup prints the look-back message. *)
Lemma main_setup_never_rejects (args : Args) :
  quiet (fun e => negb (is_look_back_rejection e)) (main_setup env args).
Proof.
  unfold main_setup, _verify_destination_args, _delete_stored_password,
    _create_handlers, _get_log_formatter, _get_logger, _set_up_cursor_store,
    store_reset, _create_sdk_from_args, _get_server_from_args,
    _get_username_from_args, _exit_from_argument_error, _get_password,
    print_nothing, call_handle_error, _ignore_ssl_errors, print.
  destruct (py3 env); repeat quiet_step.
Qed.

Lemma look_back_message_absent (t : list event) :
  forallb (fun e => negb (is_look_back_rejection e)) t = true ->
  ~ In (EPrint look_back_message) t.
Proof.
  intros H Hin. rewrite forallb_forall in H. specialize (H _ Hin).
  vm_compute in H. discriminate.
Qed.

(** With [--begin] at or after the boundary, [_extract] prints nothing
    and emits at most the call of the extractor. *)
Lemma extract_recent_shape (args : Args) (sdk : SDK) (h : FileEventHandlers)
    (t : Z) (w : World) :
  parse_timestamp env (begin_date args) = inr (Some t) ->
  boundary env <= t ->
  match parse_timestamp env (end_date args) with
  | inl ex => _extract env args sdk h w = (Raised ex, w, [])
  | inr mx =>
      _extract env args sdk h w =
      (match extractor_extract env (Some t) mx (exposure_types args) with
       | inl ex => Raised ex
       | inr u => Normal u
       end,
       w, [EExtract sdk h (Some t) mx (exposure_types args)])
  end.
Proof.
  intros Hp Hle.
  destruct (parse_timestamp env (end_date args)) as [ex | mx] eqn:Hm.
  - unfold _extract. rewrite bind_run.
    rewrite (parse_min_timestamp_recent env _ _ _ Hp Hle).
    unfold bind, lift, raise, result, world, trace. simpl. rewrite Hm. reflexivity.
  - apply (extract_recent env _ _ _ _ _ _ Hp Hle Hm).
Qed.

End AedSetupFacts.

(** ** Claims about [extract-aed] *)

Section AedClaims.
Import Python Json Aed.
Variable env : Env.

(** C1.  When [--begin] resolves to a timestamp strictly before the
    boundary (90 days before the UTC time read at validation), the program
    ends with a non-zero status and has issued no query; [_extract] itself
    stops at [exit(1)].  When it resolves to a timestamp at or after the
    boundary, the validation returns it unchanged, without output, and
    [_extract] goes on to call the extractor with it as [min_timestamp].
    Of the run of [main], then: whenever the setup before [_extract]
    completes and [--end] resolves, the run is that setup followed by the
    call of the extractor with [min_timestamp] the value [--begin]
    resolved to, and it ends as the extractor does; the look-back message
    is never printed; and the run either ends with that call or has
    stopped, without completing, before any query. *)
Theorem C1_look_back_boundary (args : Args) (sdk : SDK)
    (handlers : FileEventHandlers) (w : World) (t : Z) :
  parse_timestamp env (begin_date args) = inr (Some t) ->
  (t < boundary env ->
   exit_status (result (main env args w)) <> 0 /\
   no_query (trace (main env args w)) = true /\
   _extract env args sdk handlers w =
   (SysExit 1, w, [EPrint "Argument '--begin' must be within 90 days."]))
  /\
  (boundary env <= t ->
   _parse_min_timestamp env (begin_date args) w = (Normal (Some t), w, []) /\
   (forall mx,
      parse_timestamp env (end_date args) = inr mx ->
      trace (_extract env args sdk handlers w) =
      [EExtract sdk handlers (Some t) mx (exposure_types args)]) /\
   (forall sdk' handlers' w1 t1 mx,
      main_setup env args w = (Normal (sdk', handlers'), w1, t1) ->
      parse_timestamp env (end_date args) = inr mx ->
      main env args w =
      (match extractor_extract env (Some t) mx (exposure_types args) with
       | inl ex => Raised ex
       | inr u => Normal u
       end,
       w1,
       t1 ++ [EExtract sdk' handlers' (Some t) mx (exposure_types args)])) /\
   ~ In (EPrint look_back_message) (trace (main env args w)) /\
   ((exists pre sdk' handlers' mx,
       trace (main env args w) =
       pre ++ [EExtract sdk' handlers' (Some t) mx (exposure_types args)] /\
       no_query pre = true) \/
    (no_query (trace (main env args w)) = true /\
     completed (result (main env args w)) = false))).
Proof.
  intro Hp. split.
  - intro Hlt. destruct (main_old_begin_rejected env args w t Hp Hlt) as [Hs Hq].
    repeat split.
    + rewrite Hs. discriminate.
    + exact Hq.
    + apply (extract_old env _ _ _ _ _ Hp Hlt).
  - intro Hle.
    split; [apply (parse_min_timestamp_recent env _ _ _ Hp Hle) |].
    split.
    { intros mx Hm. rewrite (extract_recent env _ _ _ _ _ _ Hp Hle Hm). reflexivity. }
    split.
    { intros sdk' h' w1 t1 mx Hs Hm.
      rewrite main_is_setup_then_extract, bind_run, Hs. simpl.
      rewrite (extract_recent env _ _ _ _ _ _ Hp Hle Hm). reflexivity. }
    pose proof (main_setup_quiet env args w) as [Hnq Hst].
    pose proof (main_setup_never_rejects env args w) as [Hnr _].
    apply look_back_message_absent in Hnr.
    rewrite main_is_setup_then_extract, bind_run.
    destruct (main_setup env args w) as [[[[sdk' h'] | n | ex] w1] t1];
      simpl in *.
    + pose proof (extract_recent_shape env args sdk' h' t w1 Hp Hle) as Hshape.
      destruct (parse_timestamp env (end_date args)) as [ex | mx];
        rewrite Hshape; simpl.
      * rewrite app_nil_r. split; [exact Hnr | right; auto].
      * split.
        -- intro Hin. apply in_app_or in Hin. destruct Hin as [Hin | Hin].
           ++ exact (Hnr Hin).
           ++ destruct Hin as [Hin | []]. discriminate.
        -- left. exists t1, sdk', h', mx. auto.
    + split; [exact Hnr | right; auto].
    + split; [exact Hnr | right; auto].
Qed.

(** X24.  [_extract] does not compare the two timestamps: when
    [--begin] resolves within the look-back boundary and [--end] resolves,
    it calls the extractor with both values unchanged, whatever their
    order, and ends as the extractor does. *)
Theorem extract_passes_window_unchecked (args : Args) (sdk : SDK)
    (handlers : FileEventHandlers) (w : World) (mn mx : Z) :
  parse_timestamp env (begin_date args) = inr (Some mn) ->
  parse_timestamp env (end_date args) = inr (Some mx) ->
  boundary env <= mn ->
  _extract env args sdk handlers w =
  (match extractor_extract env (Some mn) (Some mx) (exposure_types args) with
   | inl ex => Raised ex
   | inr u => Normal u
   end,
   w, [EExtract sdk handlers (Some mn) (Some mx) (exposure_types args)]).
Proof.
  intros Hb He Hle. apply (extract_recent env _ _ _ _ _ _ Hb Hle He).
Qed.

(** C4.  With [clear_cursor] set, every query of a run of [main] comes
    after a call to the cursor store's [reset()]. *)
Theorem C4_reset_precedes_queries (args : Args) (w : World) :
  clear_cursor args = true ->
  forall pre e post,
    trace (main env args w) = pre ++ e :: post ->
    is_query e = true ->
    In EStoreReset pre.
Proof.
  intros Hc pre e post Heq Hq.
  assert (H : reset_before_query false (trace (main env args w)) = true).
  { unfold main. rewrite Hc.
    assert (Hstep : forall {A B} (c : M A) (k : A -> M B) w0,
               quiet not_query c ->
               (forall a w1, reset_before_query false (trace (k a w1)) = true) ->
               reset_before_query false (trace (bind c k w0)) = true).
    { intros A B c k w0 Hquiet Hk. rewrite bind_run.
      destruct (Hquiet w0) as [Ht _].
      destruct (c w0) as [[[a | n | ex] w1] t1]; simpl in *.
      - apply reset_before_query_quiet; auto.
      - rewrite <- (app_nil_r t1). apply reset_before_query_quiet; auto.
      - rewrite <- (app_nil_r t1). apply reset_before_query_quiet; auto. }
    apply Hstep; [apply not_build_not_query, verify_quiet | intros _ w1].
    apply Hstep;
      [destruct (reset_password args);
         [apply not_build_not_query, delete_quiet | apply quiet_ret] | intros _ w2].
    apply Hstep; [apply create_handlers_quiet | intros h w3].
    rewrite bind_run.
    destruct (set_up_cursor_store_clear (record_cursor args) h w3) as (h' & w4 & ->).
    simpl. apply reset_before_query_seen. }
  destruct (reset_before_query_sound _ _ H pre e post Heq Hq) as [Hs | Hin];
    [discriminate | exact Hin].
Qed.



(** C8.  When the body is an object whose ["fileEvents"] field is a list
    of records, the handler returns normally after writing one line per
    record, each the formatter's rendering of that record, in the order of
    the list. *)
Theorem C8_one_line_per_record_in_order (logger : Logger) (text : string)
    (fields : list (string * json)) (events : list json) (w : World) :
  json_loads env text = inr (JObj fields) ->
  dict_get "fileEvents" fields = Some (JArr events) ->
  handle_response_fn env logger text w =
  (Normal tt, w,
   map (fun ev => EWriteLine logger (format env (formatter logger) ev)) events).
Proof.
  intros Hl Hf.
  unfold handle_response_fn, bind, lift, ret, result, world, trace.
  rewrite Hl. simpl. rewrite Hf. simpl.
  rewrite for_each_emit. reflexivity.
Qed.

(** C9.  When the output format is neither ["JSON"] nor ["CEF"], compared
    as exact strings, the program ends with status 1 without having built a
    record formatter or an output sink and without having issued a query;
    [_get_log_formatter] itself stops at [exit(1)].  Only the error logger
    has been obtained by then. *)
Theorem C9_unsupported_format_exits (args : Args) (w : World) :
  output_format args <> "JSON" ->
  output_format args <> "CEF" ->
  exit_status (result (main env args w)) = 1 /\
  forallb not_build (trace (main env args w)) = true /\
  _get_log_formatter (output_format args) w =
  (SysExit 1, w,
   [EPrint (String.append "Unsupported output format " (output_format args))]).
Proof.
  intros Hj Hc.
  apply String.eqb_neq in Hj. apply String.eqb_neq in Hc.
  assert (Hf : forall w0,
             _get_log_formatter (output_format args) w0 =
             (SysExit 1, w0,
              [EPrint (String.append "Unsupported output format " (output_format args))])).
  { intro w0. unfold _get_log_formatter. rewrite Hj, Hc. reflexivity. }
  assert (Hq : quiet not_build (_create_handlers env args)).
  { unfold _create_handlers.
    apply quiet_bind; [apply quiet_emit; reflexivity | intros _].
    apply quiet_bind; [apply quiet_modify | intros _].
    apply quiet_bind_dead.
    - intro w0. rewrite Hf. simpl. auto.
    - intro w0. rewrite Hf. reflexivity. }
  assert (Hn : never_completes (_create_handlers env args)).
  { unfold _create_handlers.
    do 2 (apply never_completes_bind_r; intro).
    apply never_completes_bind_l. intro w0. rewrite Hf. reflexivity. }
  assert (Hmq : quiet not_build (main env args)).
  { unfold main.
    apply quiet_bind; [apply verify_quiet | intros _].
    apply quiet_bind;
      [destruct (reset_password args); [apply delete_quiet | apply quiet_ret]
      | intros _].
    apply quiet_bind_dead; assumption. }
  assert (Hmn : never_completes (main env args)).
  { unfold main.
    do 2 (apply never_completes_bind_r; intro).
    apply never_completes_bind_l, Hn. }
  repeat split.
  - apply (never_completes_status _ _ _ Hmq Hmn).
  - apply Hmq.
  - apply Hf.
Qed.

(** C10, as amended.  When the body parses to a value on which the test
    ["fileEvents" in response_dict] is false (an object without that key, a
    list without that string, a string without that substring), the
    handler writes nothing and returns normally.  When the body parses to
    [null], a boolean or a number, the test itself raises [TypeError] and
    the handler writes nothing. *)
Theorem C10_absent_key_is_silent (logger : Logger) (text : string) (v : json)
    (w : World) :
  json_loads env text = inr v ->
  (py_in "fileEvents" v = inr false ->
   handle_response_fn env logger text w = (Normal tt, w, [])) /\
  (v = JNull \/ (exists b, v = JBool b) \/ (exists n, v = JNum n) ->
   handle_response_fn env logger text w = (Raised TypeError, w, [])) /\
  ((forall fields, v = JObj fields -> dict_get "fileEvents" fields = None) ->
   (forall items, v = JArr items -> existsb (is_str "fileEvents") items = false) ->
   (forall s, v = JStr s -> is_substring "fileEvents" s = false) ->
   v <> JNull -> (forall b, v <> JBool b) -> (forall n, v <> JNum n) ->
   handle_response_fn env logger text w = (Normal tt, w, [])).
Proof.
  intro Hl.
  unfold handle_response_fn, bind, lift, raise, ret.
  rewrite Hl. simpl.
  split; [| split].
  - intro Hin. rewrite Hin. reflexivity.
  - intros [-> | [[b ->] | [n ->]]]; reflexivity.
  - intros Hobj Harr Hstr Hn Hb Hnum.
    destruct v as [| b | n | s | items | fields]; simpl.
    + congruence.
    + exfalso. apply (Hb b). reflexivity.
    + exfalso. apply (Hnum n). reflexivity.
    + rewrite (Hstr s eq_refl). reflexivity.
    + rewrite (Harr items eq_refl). reflexivity.
    + rewrite (Hobj fields eq_refl). reflexivity.
Qed.

End AedClaims.

(** ** Claims about the [alerts] commands *)

Section AlertsClaims.
Import Python Alerts.
Variable env : Env.

Ltac run_case :=
  match goal with
  | |- context [match ?x with _ => _ end] =>
      lazymatch x with
      | context [match _ with _ => _ end] => fail
      | _ => destruct x eqn:?
      end
  | |- context [if ?b then _ else _] =>
      lazymatch b with
      | context [if _ then _ else _] => fail
      | _ => destruct b eqn:?
      end
  end.

Ltac unfold_commands :=
  unfold search, send_to, _call_extractor, extractor_call, get_sdk,
    no_events_flag, handle_no_events, _get_alert_cursor_store, run_result,
    reports_no_results, bind, lift, emit, ret, raise, gets, modify,
    result, world, trace, completed.

Ltac settle :=
  repeat (simpl in *; subst;
          try match goal with
              | H : _ /\ _ |- _ => destruct H
              | H : (_ && _)%bool = true |- _ => apply andb_prop in H
              | H : negb _ = true |- _ => apply negb_true_iff in H
              | H : (_ =? _)%N = true |- _ => apply N.eqb_eq in H
              | H : {| total_events := _; had_errors := _ |} = _ |- _ =>
                  injection H as ? ?
              end);
  try discriminate; try congruence; auto.

Lemma no_results_flag (total : N) (errored : bool) :
  ((total =? 0)%N && negb errored = true) <->
  {| total_events := total; had_errors := errored |} =
  {| total_events := 0; had_errors := false |}.
Proof.
  split.
  - intro H. apply andb_prop in H. destruct H as [Ht He].
    apply N.eqb_eq in Ht. apply negb_true_iff in He. subst. reflexivity.
  - intro H. injection H as -> ->. reflexivity.
Qed.

(** C3.  For [search] and for [send_to]: the run reports no results
    exactly when it completes with zero events processed and no error
    recorded.  So a completed run with the result 0 events, no error is
    reported as no results, and a run that recorded an error, processed
    events or did not complete is never reported so. *)
Theorem C3_no_results_reported_iff_empty_and_clean (cli_state : CLIState)
    (format hostname protocol : string) (begin_ end_ : option Z)
    (advanced_query use_checkpoint : option string)
    (or_query include_all : bool) (w : World) :
  (reports_no_results
     (trace (search env cli_state format begin_ end_ advanced_query use_checkpoint
               or_query include_all w)) = true <->
   completed
     (result (search env cli_state format begin_ end_ advanced_query use_checkpoint
                or_query include_all w)) = true /\
   run_result
     (world (search env cli_state format begin_ end_ advanced_query use_checkpoint
               or_query include_all w)) =
   {| total_events := 0; had_errors := false |})
  /\
  (reports_no_results
     (trace (send_to env cli_state format hostname protocol begin_ end_
               advanced_query use_checkpoint or_query w)) = true <->
   completed
     (result (send_to env cli_state format hostname protocol begin_ end_
                advanced_query use_checkpoint or_query w)) = true /\
   run_result
     (world (send_to env cli_state format hostname protocol begin_ end_
               advanced_query use_checkpoint or_query w)) =
   {| total_events := 0; had_errors := false |}).
Proof.
  split; unfold_commands; rewrite <- no_results_flag;
    repeat (simpl; run_case); simpl;
    repeat rewrite existsb_app; simpl;
    try rewrite Bool.orb_false_r;
    split; intro H; settle.
Qed.

(** C5.  An invocation of [clear-checkpoint N] returns normally after
    exactly one call to the store's [delete], with the name [N], on the
    store of the profile, and runs no extractor. *)
Theorem C5_clear_checkpoint_deletes_once (state : CLIState) (checkpoint_name : string)
    (w : World) :
  result (invoke state (clear_checkpoint state checkpoint_name) w) = Normal tt /\
  trace (invoke state (clear_checkpoint state checkpoint_name) w) =
  [ANewCursorStore (profile_name state);
   AStoreDelete (profile_name state) checkpoint_name] /\
  List.length
    (filter (is_delete_of checkpoint_name)
       (trace (invoke state (clear_checkpoint state checkpoint_name) w))) = 1%nat /\
  existsb is_query
    (trace (invoke state (clear_checkpoint state checkpoint_name) w)) = false.
Proof.
  simpl. unfold is_delete_of. rewrite String.eqb_refl. auto.
Qed.

End AlertsClaims.

(** ** The claims on the sample runs *)

Section SampleRuns.
Import Python Json Aed Samples Samples.AedRun.

Lemma C1_look_back_boundary_witness :
  (parse_timestamp sample_env (begin_date old_begin_args) =
   inr (Some 1592092800000000) /\
   1592092800000000 < boundary sample_env /\
   exit_status (result (main sample_env old_begin_args sample_world)) <> 0 /\
   no_query (trace (main sample_env old_begin_args sample_world)) = true)
  /\
  (parse_timestamp sample_env (begin_date recent_begin_args) =
   inr (Some 1592265600000000) /\
   boundary sample_env <= 1592265600000000 /\
   trace (_extract sample_env recent_begin_args sample_sdk sample_handlers
            sample_world) =
   [EExtract sample_sdk sample_handlers (Some 1592265600000000) None None] /\
   main_setup sample_env recent_begin_args sample_world =
   (Normal (sample_sdk, sample_handlers), logged_in_world, setup_trace) /\
   main sample_env recent_begin_args sample_world =
   (Normal tt, logged_in_world,
    setup_trace
    ++ [EExtract sample_sdk sample_handlers (Some 1592265600000000) None None])).
Proof.
  split.
  - destruct (C1_look_back_boundary sample_env old_begin_args sample_sdk
                sample_handlers sample_world 1592092800000000 eq_refl) as [Hold _].
    destruct (Hold eq_refl) as (Hs & Hq & _).
    exact (conj eq_refl (conj eq_refl (conj Hs Hq))).
  - destruct (C1_look_back_boundary sample_env recent_begin_args sample_sdk
                sample_handlers sample_world 1592265600000000 eq_refl)
      as [_ Hrecent].
    assert (Hle : boundary sample_env <= 1592265600000000)
      by (vm_compute; discriminate).
    destruct (Hrecent Hle) as (_ & Hq & Hmain & _).
    exact (conj eq_refl (conj Hle (conj (Hq None eq_refl)
             (conj eq_refl
                (Hmain sample_sdk sample_handlers logged_in_world setup_trace
                   None eq_refl eq_refl))))).
Defined.

Lemma extract_passes_window_unchecked_witness :
  parse_timestamp sample_env (begin_date inverted_window_args) =
  inr (Some 1598918400000000) /\
  parse_timestamp sample_env (end_date inverted_window_args) =
  inr (Some 1592265600000000) /\
  boundary sample_env <= 1598918400000000 /\
  _extract sample_env inverted_window_args sample_sdk sample_handlers sample_world =
  (Normal tt, sample_world,
   [EExtract sample_sdk sample_handlers
      (Some 1598918400000000) (Some 1592265600000000) None]).
Proof.
  assert (Hle : boundary sample_env <= 1598918400000000)
    by (vm_compute; discriminate).
  refine (conj eq_refl (conj eq_refl (conj Hle _))).
  exact (extract_passes_window_unchecked sample_env inverted_window_args sample_sdk
           sample_handlers sample_world 1598918400000000 1592265600000000
           eq_refl eq_refl Hle).
Defined.

Lemma C4_reset_precedes_queries_witness :
  clear_cursor clear_cursor_args = true /\
  no_query (trace (main sample_env clear_cursor_args sample_world)) = false /\
  forall pre e post,
    trace (main sample_env clear_cursor_args sample_world) = pre ++ e :: post ->
    is_query e = true ->
    In EStoreReset pre.
Proof.
  refine (conj eq_refl (conj eq_refl _)).
  exact (C4_reset_precedes_queries sample_env clear_cursor_args sample_world eq_refl).
Defined.




Lemma C8_one_line_per_record_in_order_witness :
  json_loads sample_env page_text =
  inr (JObj [("fileEvents", JArr [record "e1"; record "e2"])]) /\
  dict_get "fileEvents" [("fileEvents", JArr [record "e1"; record "e2"])] =
  Some (JArr [record "e1"; record "e2"]) /\
  handle_response_fn sample_env stdout_logger page_text sample_world =
  (Normal tt, sample_world,
   [EWriteLine stdout_logger "json e1"; EWriteLine stdout_logger "json e2"]).
Proof.
  refine (conj eq_refl (conj eq_refl _)).
  exact (C8_one_line_per_record_in_order sample_env stdout_logger page_text
           [("fileEvents", JArr [record "e1"; record "e2"])]
           [record "e1"; record "e2"] sample_world eq_refl eq_refl).
Defined.

Lemma C9_unsupported_format_exits_witness :
  output_format lowercase_format_args <> "JSON" /\
  output_format lowercase_format_args <> "CEF" /\
  exit_status (result (main sample_env lowercase_format_args sample_world)) = 1 /\
  forallb not_build (trace (main sample_env lowercase_format_args sample_world)) = true.
Proof.
  assert (Hj : output_format lowercase_format_args <> "JSON") by discriminate.
  assert (Hc : output_format lowercase_format_args <> "CEF") by discriminate.
  destruct (C9_unsupported_format_exits sample_env lowercase_format_args
              sample_world Hj Hc) as (Hs & Hq & _).
  exact (conj Hj (conj Hc (conj Hs Hq))).
Defined.

Lemma C10_counterexample :
  json_loads sample_env "null" = inr JNull /\
  has_key "fileEvents" JNull = false /\
  handle_response_fn sample_env stdout_logger "null" sample_world =
  (Raised TypeError, sample_world, []).
Proof. vm_compute. repeat split. Qed.

Lemma C10_absent_key_is_silent_witness :
  (json_loads sample_env "{}" = inr (JObj []) /\
   py_in "fileEvents" (JObj []) = inr false /\
   handle_response_fn sample_env stdout_logger "{}" sample_world =
   (Normal tt, sample_world, []))
  /\
  (json_loads sample_env "null" = inr JNull /\
   handle_response_fn sample_env stdout_logger "null" sample_world =
   (Raised TypeError, sample_world, [])).
Proof.
  split.
  - refine (conj eq_refl (conj eq_refl _)).
    exact (proj1 (C10_absent_key_is_silent sample_env stdout_logger "{}" (JObj [])
                    sample_world eq_refl) eq_refl).
  - refine (conj eq_refl _).
    exact (proj1 (proj2 (C10_absent_key_is_silent sample_env stdout_logger "null"
                           JNull sample_world eq_refl)) (or_introl eq_refl)).
Defined.

End SampleRuns.

Section SampleAlertsRuns.
Import Python Alerts Samples Samples.AlertsRun.

Lemma C3_no_results_reported_iff_empty_and_clean_witness :
  (completed (result (search_run 0 false)) = true /\
   run_result (world (search_run 0 false)) =
   {| total_events := 0; had_errors := false |} /\
   reports_no_results (trace (search_run 0 false)) = true)
  /\
  (run_result (world (search_run 0 true)) =
   {| total_events := 0; had_errors := true |} /\
   reports_no_results (trace (search_run 0 true)) = false)
  /\
  (run_result (world (search_run 3 false)) =
   {| total_events := 3; had_errors := false |} /\
   reports_no_results (trace (search_run 3 false)) = false).
Proof.
  refine (conj (conj eq_refl (conj eq_refl _))
               (conj (conj eq_refl eq_refl) (conj eq_refl eq_refl))).
  exact (proj2 (proj1 (C3_no_results_reported_iff_empty_and_clean
                         (sample_env 0 false) sample_state "TABLE" "host" "TCP"
                         None None None None false false sample_world))
               (conj eq_refl eq_refl)).
Defined.

End SampleAlertsRuns.

(** * Further properties of [extract-aed] *)

Section AedDestination.
Import Python Json Aed.
Variable env : Env.

Lemma verify_destination_args_by_conflict (args : Args) (w : World) :
  (destination_args_conflict args ->
   exists message,
     _verify_destination_args args w = (SysExit 1, w, [EPrint message])) /\
  (~ destination_args_conflict args ->
   _verify_destination_args args w = (Normal tt, w, [])).
Proof.
  unfold destination_args_conflict, _verify_destination_args, bind, print, emit,
    exit, ret.
  destruct (String.eqb_spec (destination_type args) "stdout") as [E1 | E1];
    destruct (String.eqb_spec (destination_type args) "file") as [E2 | E2];
    destruct (String.eqb_spec (destination_type args) "server") as [E3 | E3];
    try (rewrite E1 in *; discriminate);
    try (rewrite E2 in *; discriminate);
    destruct (destination args) as [d |]; simpl;
    (split; intro H;
     [ first [ solve [eauto]
             | exfalso;
               destruct H as [[H1 H2] | [[H1 H2] | [H1 H2]]]; congruence ]
     | first [ reflexivity
             | exfalso; apply H;
               first [ left; split; [assumption | discriminate]
                     | right; left; split; [assumption | reflexivity]
                     | right; right; split; [assumption | reflexivity] ] ] ]).
Qed.

(** X1.  [_verify_destination_args] lets a command line through, silently,
    exactly when [stdout] comes without a destination and [file] and
    [server] come with one; any other destination type passes.  Otherwise
    it prints one message and exits with status 1. *)
Theorem verify_destination_args_accepts (args : Args) (w : World) :
  (_verify_destination_args args w = (Normal tt, w, []) <->
   (destination_type args = "stdout" -> destination args = None) /\
   (destination_type args = "file" \/ destination_type args = "server" ->
    destination args <> None))
  /\
  (_verify_destination_args args w = (Normal tt, w, []) \/
   exists message,
     _verify_destination_args args w = (SysExit 1, w, [EPrint message])).
Proof.
  unfold _verify_destination_args, bind, print, emit, exit, ret.
  destruct (String.eqb_spec (destination_type args) "stdout") as [E1 | E1];
    destruct (String.eqb_spec (destination_type args) "file") as [E2 | E2];
    destruct (String.eqb_spec (destination_type args) "server") as [E3 | E3];
    try (rewrite E1 in *; discriminate);
    try (rewrite E2 in *; discriminate);
    destruct (destination args) as [d |]; simpl;
    (split;
     [ split;
       [ intro H; try discriminate; split; intros; try congruence;
         try (destruct H0; congruence)
       | intros [H1 H2]; try reflexivity; exfalso;
         try (discriminate (H1 E1));
         try (apply H2; auto; fail) ]
     | eauto ]).
Qed.

(** X2.  When the destination arguments conflict, [main] does nothing but
    print the message and exit with status 1: nothing is deleted from the
    keyring even with [--reset-password], and the world is untouched. *)
Theorem main_stops_at_destination_conflict (args : Args) (w : World) :
  destination_args_conflict args ->
  exists message, main env args w = (SysExit 1, w, [EPrint message]).
Proof.
  intro Hc. unfold main. rewrite bind_run.
  destruct (proj1 (verify_destination_args_by_conflict args w) Hc) as [m Hm].
  rewrite Hm. eauto.
Qed.

(** X3.  When the destination arguments are accepted and the keyring has
    no password to delete ([PasswordDeleteError]), the run with
    [--reset-password] is the run without it, preceded by the one call to
    [keyring.delete_password]: same outcome, same final state, same later
    calls. *)
Theorem reset_of_absent_password_is_harmless (args : Args) (w : World) :
  ~ destination_args_conflict args ->
  keyring_delete_password env _SERVICE_NAME_FOR_KEYCHAIN (c42_username args) =
  inl PasswordDeleteError ->
  main env (set_reset_password true args) w =
  (result (main env (set_reset_password false args) w),
   world (main env (set_reset_password false args) w),
   EKeyringDelete _SERVICE_NAME_FOR_KEYCHAIN (c42_username args)
     :: trace (main env (set_reset_password false args) w)).
Proof.
  intros Hok Hdel.
  assert (Hv : forall b,
             _verify_destination_args (set_reset_password b args) w =
             (Normal tt, w, [])).
  { intro b.
    apply (proj2 (verify_destination_args_by_conflict (set_reset_password b args) w)).
    exact Hok. }
  assert (Hd : _delete_stored_password env (c42_username args) w =
               (Normal tt, w,
                [EKeyringDelete _SERVICE_NAME_FOR_KEYCHAIN (c42_username args)])).
  { unfold _delete_stored_password, try_except, bind, emit, lift, raise, ret.
    simpl. rewrite Hdel. reflexivity. }
  unfold main. rewrite 2 bind_run, 2 Hv. simpl.
  rewrite 2 bind_run, Hd. simpl.
  reflexivity.
Qed.

End AedDestination.

Section AedSetup.
Import Python Json Aed.
Variable env : Env.

Ltac handler_cases :=
  let ex := fresh "ex" in
  let k := fresh "k" in
  let H := fresh "H" in
  intros ex k H; destruct ex; simpl in H; try discriminate;
  try (destruct (is_Exception _); try discriminate);
  injection H as <-.

Ltac stage_step :=
  first
    [ apply quiet_bind; [| intro]
    | apply quiet_try_except; [| handler_cases]
    | apply quiet_emit; reflexivity
    | solve [auto with quiet]
    | match goal with
      | |- quiet _ (if ?b then _ else _) => destruct b
      | |- quiet _ (match ?x with _ => _ end) => destruct x
      end ].

Ltac stage_quiet := repeat stage_step.

(** X4.  [_get_logger] never lets [AttributeError], [gaierror] or
    [IOError] out: it returns the logger built from exactly its arguments,
    after one call to [common.get_logger] that succeeded, or exits with
    status 1 after printing one message, or passes on another exception. *)
Theorem get_logger_contains_sink_errors (f : Formatter) (d : option string)
    (dt : string) (port : Z) (proto : string) (w : World) :
  world (_get_logger env f d dt port proto w) = w /\
  result (_get_logger env f d dt port proto w) <> Raised AttributeError /\
  result (_get_logger env f d dt port proto w) <> Raised gaierror /\
  result (_get_logger env f d dt port proto w) <> Raised IOError /\
  (forall logger,
     result (_get_logger env f d dt port proto w) = Normal logger ->
     logger = {| formatter := f;
                 logger_destination := d;
                 logger_destination_type := dt;
                 logger_destination_port := port;
                 logger_destination_protocol := proto |} /\
     get_logger env logger = inr tt /\
     trace (_get_logger env f d dt port proto w) = [EGetLogger logger]) /\
  (forall code,
     result (_get_logger env f d dt port proto w) = SysExit code ->
     code = 1 /\
     exists logger message,
       trace (_get_logger env f d dt port proto w) =
       [EGetLogger logger; EPrint message]).
Proof.
  unfold _get_logger, try_except, bind, emit, lift, raise, ret, print, exit,
    result, world, trace.
  simpl.
  destruct (get_logger env _) as [[] | []] eqn:Hg; simpl;
    repeat split; intros; try discriminate;
    try match goal with
        | H : Normal _ = Normal _ |- _ => injection H as <-
        | H : SysExit _ = SysExit _ |- _ => injection H as <-
        end;
    eauto.
Qed.

Lemma delete_for_inv (user : option string) (e : event) :
  is_delete_for user e = true -> e = EKeyringDelete _SERVICE_NAME_FOR_KEYCHAIN user.
Proof.
  destruct e as [| | service account | | | | | | | | | | | | | | |];
    simpl; try discriminate.
  intro H. apply andb_prop in H. destruct H as [Hs Ha].
  apply String.eqb_eq in Hs. subst.
  destruct account as [a |], user as [u |]; try discriminate.
  - apply String.eqb_eq in Ha. subst. reflexivity.
  - reflexivity.
Qed.

Lemma delete_for_refl (user : option string) :
  is_delete_for user (EKeyringDelete _SERVICE_NAME_FOR_KEYCHAIN user) = true.
Proof.
  destruct user as [u |]; simpl; [apply String.eqb_refl | reflexivity].
Qed.

(** X5.  When the host address or the user name is missing, [main] does
    not complete: it stops, by [exit(1)] or by an exception nobody caught,
    before any use of the password: no keyring lookup, no prompt, no
    saving of a password, no SDK login, and no query.  The only call to
    the keyring such a run can make is the deletion of the stored password
    of the given user, and only with [--reset-password]. *)
Theorem main_missing_account_stops_before_login (args : Args) (w : World) :
  c42_authority_url args = None \/ c42_username args = None ->
  completed (result (main env args w)) = false /\
  stopped (result (main env args w)) /\
  forallb before_login (trace (main env args w)) = true /\
  (forall e,
     In e (trace (main env args w)) ->
     is_keyring_call e = true ->
     reset_password args = true /\
     e = EKeyringDelete _SERVICE_NAME_FOR_KEYCHAIN (c42_username args)).
Proof.
  intro Hm.
  assert (Hq : forall h,
             quiet (allowed_without_account args) (_create_sdk_from_args env args h) /\
             never_completes (_create_sdk_from_args env args h)).
  { intro h. unfold _create_sdk_from_args, _get_server_from_args,
      _get_username_from_args, _exit_from_argument_error, print.
    destruct (c42_authority_url args) as [server |].
    - destruct Hm as [Hm | Hm]; [discriminate |]. rewrite Hm. split.
      + apply quiet_bind; [apply quiet_ret | intro].
        apply quiet_bind_dead; [stage_quiet | intro w0; reflexivity].
      + apply never_completes_bind_r; intro.
        apply never_completes_bind_l. intro w0; reflexivity.
    - split.
      + apply quiet_bind_dead; [stage_quiet | intro w0; reflexivity].
      + apply never_completes_bind_l. intro w0; reflexivity. }
  assert (Hmq : quiet (allowed_without_account args) (main env args)).
  { unfold main.
    apply quiet_bind;
      [unfold _verify_destination_args, print; stage_quiet | intros _].
    apply quiet_bind.
    { destruct (reset_password args) eqn:Hr; [| apply quiet_ret].
      unfold _delete_stored_password.
      apply quiet_try_except; [| handler_cases; apply quiet_ret].
      apply quiet_bind; [| intro; apply quiet_lift].
      apply quiet_emit. unfold allowed_without_account.
      rewrite Hr, delete_for_refl. reflexivity. }
    intros _.
    apply quiet_bind;
      [unfold _create_handlers, _get_log_formatter, _get_logger, print; stage_quiet
      | intro h].
    apply quiet_bind;
      [unfold _set_up_cursor_store, store_reset; stage_quiet | intro h'].
    apply quiet_bind_dead; apply Hq. }
  assert (Hmn : never_completes (main env args)).
  { unfold main.
    do 4 (apply never_completes_bind_r; intro).
    apply never_completes_bind_l, Hq. }
  assert (Hall : forall e, In e (trace (main env args w)) ->
                           allowed_without_account args e = true).
  { apply forallb_forall. apply (Hmq w). }
  split; [apply Hmn | split; [| split]].
  - apply (not_completed_stopped _ _ w Hmq (Hmn w)).
  - apply forallb_forall. intros e He.
    specialize (Hall e He). unfold allowed_without_account in Hall.
    apply andb_prop in Hall. apply Hall.
  - intros e He Hk.
    specialize (Hall e He). unfold allowed_without_account in Hall.
    apply andb_prop in Hall. destruct Hall as [_ Hall].
    rewrite Hk in Hall. simpl in Hall.
    apply andb_prop in Hall. destruct Hall as [Hr Hd].
    split; [exact Hr | apply delete_for_inv, Hd].
Qed.

(** *** The password *)

Lemma ascii_lower_y (c : ascii) :
  Ascii.eqb (ascii_lower c) "y"%char = true -> c = "y"%char \/ c = "Y"%char.
Proof.
  destruct c as [[] [] [] [] [] [] [] []]; simpl; intro H;
    try discriminate; auto.
Qed.

(** X6.  [_get_password] writes to the keyring only when the keyring had
    no password, the user typed one, and the answer to the save prompt
    starts with [y] or [Y]; what it writes, under the service name and the
    user name, is the password typed, which is also the one it returns. *)
Theorem password_saved_only_on_yes (user : string) (w : World)
    (service account secret : string) :
  In (EKeyringSet service account secret) (trace (_get_password env user w)) ->
  service = _SERVICE_NAME_FOR_KEYCHAIN /\
  account = user /\
  keyring_get_password env _SERVICE_NAME_FOR_KEYCHAIN user = inr None /\
  getpass env password_prompt = inr secret /\
  (exists c rest,
     get_input env save_prompt = inr (String c rest) /\
     (c = "y"%char \/ c = "Y"%char)) /\
  (forall returned,
     result (_get_password env user w) = Normal returned -> returned = secret).
Proof.
  unfold _get_password, try_except, bind, emit, lift, raise, ret, print, exit,
    result, trace, password_prompt, save_prompt.
  simpl.
  destruct (keyring_get_password env _ user) as [ex | [stored |]]; simpl;
    try (intros [H | []]; discriminate).
  destruct (getpass env _) as [ex | typed]; simpl.
  { destruct ex; simpl; intro H; repeat destruct H as [H | H];
      try discriminate; contradiction. }
  destruct (get_input env _) as [ex | [| c rest]]; simpl.
  { destruct ex; simpl; intro H; repeat destruct H as [H | H];
      try discriminate; contradiction. }
  { intro H; repeat destruct H as [H | H]; try discriminate; contradiction. }
  destruct (Ascii.eqb (ascii_lower c) "y"%char) eqn:Hy; simpl.
  - apply ascii_lower_y in Hy.
    destruct (keyring_set_password env _ user typed) as [ex | []]; simpl.
    + destruct ex; simpl; intro H; repeat destruct H as [H | H];
        try discriminate; try contradiction;
        injection H as <- <- <-;
        (repeat split; eauto; intros ? Hr; discriminate Hr).
    + intro H; repeat destruct H as [H | H]; try discriminate; try contradiction.
      injection H as <- <- <-.
      repeat split; eauto. intros ? Hr. injection Hr as <-. reflexivity.
  - intro H; repeat destruct H as [H | H]; try discriminate; contradiction.
Qed.


(** X8.  An empty answer to the save prompt is not taken as a no: reading
    its first character raises [IndexError], which the [try] does not
    catch.  The password typed is neither saved nor returned. *)
Theorem empty_save_answer_raises (user typed : string) (w : World) :
  keyring_get_password env _SERVICE_NAME_FOR_KEYCHAIN user = inr None ->
  getpass env password_prompt = inr typed ->
  get_input env save_prompt = inr EmptyString ->
  _get_password env user w =
  (Raised IndexError, w,
   [EKeyringGet _SERVICE_NAME_FOR_KEYCHAIN user;
    EGetpass password_prompt;
    EGetInput save_prompt]).
Proof.
  intros Hk Hg Hi.
  unfold _get_password, try_except, bind, emit, lift, raise, ret,
    password_prompt, save_prompt in *.
  simpl. rewrite Hk. simpl. rewrite Hg. simpl. rewrite Hi. reflexivity.
Qed.

(** X9.  Whatever [Exception] the login raises, [_create_sdk_from_args]
    passes it to [handlers.handle_error], prints that the user name or the
    password is incorrect, and exits with status 1; the exception itself
    does not get out. *)
Theorem sdk_failure_reported_as_bad_login (args : Args) (h : FileEventHandlers)
    (w w1 : World) (t1 : list event) (server user secret : string) (ex : exn) :
  c42_authority_url args = Some server ->
  c42_username args = Some user ->
  _get_password env user w = (Normal secret, w1, t1) ->
  create_using_local_account env
    {| host_address := server; username := user; password := secret |} = inl ex ->
  is_Exception ex = true ->
  _create_sdk_from_args env args h w =
  (SysExit 1, w1,
   t1 ++ [ESdkCreate {| host_address := server; username := user;
                        password := secret |};
          match handle_error h with
          | error_logger_error => EErrorLoggerError ex
          | default_handle_error => EDefaultHandleError ex
          end;
          EPrint "Incorrect username or password."]).
Proof.
  intros Hs Hu Hp Hc He.
  unfold _create_sdk_from_args, _get_server_from_args, _get_username_from_args.
  rewrite Hs, Hu.
  rewrite bind_run. simpl. rewrite bind_run. simpl. rewrite bind_run, Hp. simpl.
  unfold try_except, bind, emit, lift, raise, ret, print, exit, call_handle_error.
  simpl. rewrite Hc. simpl. rewrite He.
  destruct (handle_error h); reflexivity.
Qed.

(** *** A missing [--begin] *)

(** X10.  When [--begin] resolves to [None], the look-back check does not
    fall back to the current time: comparing [None] with the boundary
    raises [TypeError] under Python 3 and is true under Python 2, where the
    run is rejected as too old.  Either way [main] ends with status 1 and
    has issued no query. *)
Theorem missing_begin_is_rejected (args : Args) (w : World) :
  parse_timestamp env (begin_date args) = inr None ->
  _parse_min_timestamp env (begin_date args) w =
  (if py3 env then (Raised TypeError, w, [])
   else (SysExit 1, w, [EPrint "Argument '--begin' must be within 90 days."]))
  /\
  exit_status (result (main env args w)) = 1 /\
  no_query (trace (main env args w)) = true.
Proof.
  intro Hp.
  assert (Hmin : forall w0,
             _parse_min_timestamp env (begin_date args) w0 =
             (if py3 env then (Raised TypeError, w0, [])
              else (SysExit 1, w0,
                    [EPrint "Argument '--begin' must be within 90 days."]))).
  { intro w0.
    unfold _parse_min_timestamp, py_lt, bind, lift, raise, ret, print, emit, exit.
    rewrite Hp. simpl. destruct (py3 env); reflexivity. }
  assert (Hex : forall sdk h w0,
             completed (result (_extract env args sdk h w0)) = false /\
             forallb not_query (trace (_extract env args sdk h w0)) = true).
  { intros sdk h w0. unfold _extract. rewrite bind_run, Hmin.
    destruct (py3 env); simpl; auto. }
  assert (Hq : quiet not_query (main env args)).
  { apply main_quiet. intros sdk h w0. destruct (Hex sdk h w0) as [Hc Ht].
    split; [exact Ht |].
    right. destruct (result (_extract env args sdk h w0)) as [a | n | e] eqn:Hr.
    - discriminate.
    - unfold _extract in Hr. rewrite bind_run, Hmin in Hr.
      destruct (py3 env); simpl in Hr; try discriminate.
      injection Hr as <-. reflexivity.
    - reflexivity. }
  assert (Hn : never_completes (main env args)).
  { apply main_never_completes. intros sdk h w0. apply Hex. }
  split; [apply Hmin |]. split.
  - apply (never_completes_status _ _ _ Hq Hn).
  - apply quiet_no_query_trace, Hq.
Qed.

End AedSetup.

(** ** Orderings, for any program in the monad *)

Section OrderFacts.
Import Python.
Context {W E : Type}.

Lemma preceded_seen (first second : E -> bool) (t : list E) :
  preceded first second true t = true.
Proof.
  induction t as [| e t IH]; simpl; auto.
  destruct (second e); simpl; auto.
Qed.

Lemma preceded_quiet (first second : E -> bool) (seen : bool) (t1 t2 : list E) :
  forallb (fun e => negb (second e)) t1 = true ->
  preceded first second false t2 = true ->
  preceded first second seen (t1 ++ t2) = true.
Proof.
  revert seen. induction t1 as [| e t1 IH]; simpl; intros seen H1 H2.
  - destruct seen; auto using preceded_seen.
  - apply andb_prop in H1. destruct H1 as [He H1].
    destruct (second e); try discriminate. apply IH; auto.
Qed.

Lemma preceded_sound (first second : E -> bool) (t : list E) (seen : bool) :
  preceded first second seen t = true ->
  forall pre e post,
    t = pre ++ e :: post -> second e = true ->
    seen = true \/ existsb first pre = true.
Proof.
  revert seen. induction t as [| x t IH]; intros seen H pre e post Heq Hs.
  - destruct pre; discriminate.
  - destruct pre as [| y pre]; simpl in Heq; injection Heq as -> ->.
    + simpl in H. rewrite Hs in H. apply andb_prop in H. tauto.
    + simpl in H. destruct (second y).
      * apply andb_prop in H. destruct H as [_ H].
        destruct (IH _ H pre e post eq_refl Hs) as [Hn | Hn]; auto.
        right. simpl. rewrite Hn. apply orb_true_r.
      * destruct (IH _ H pre e post eq_refl Hs) as [Hn | Hn].
        -- apply orb_prop in Hn. destruct Hn as [Hn | Hn]; auto.
           right. simpl. rewrite Hn. reflexivity.
        -- right. simpl. rewrite Hn. apply orb_true_r.
Qed.

Lemma only_last_quiet (p : E -> bool) (t : list E) :
  forallb (fun e => negb (p e)) t = true -> only_last p t = true.
Proof.
  induction t as [| e t IH]; simpl; auto.
  intro H. apply andb_prop in H. destruct H as [He H].
  destruct (p e); try discriminate. auto.
Qed.

Lemma only_last_app (p : E -> bool) (t1 t2 : list E) :
  forallb (fun e => negb (p e)) t1 = true ->
  only_last p t2 = true ->
  only_last p (t1 ++ t2) = true.
Proof.
  induction t1 as [| e t1 IH]; simpl; auto.
  intros H H2. apply andb_prop in H. destruct H as [He H].
  destruct (p e); try discriminate. auto.
Qed.

Lemma only_last_sound (p : E -> bool) (t : list E) :
  only_last p t = true ->
  forall pre e post,
    t = pre ++ e :: post -> p e = true ->
    post = [] /\ forallb (fun x => negb (p x)) pre = true.
Proof.
  induction t as [| x t IH]; intros H pre e post Heq Hp.
  - destruct pre; discriminate.
  - destruct pre as [| y pre]; simpl in Heq; injection Heq as -> ->.
    + simpl in H. rewrite Hp in H. destruct post; [auto | discriminate].
    + simpl in H. destruct (p y) eqn:Hy.
      * destruct pre; discriminate.
      * destruct (IH H pre e post eq_refl Hp) as [H1 H2].
        simpl. rewrite Hy, H2. auto.
Qed.

Lemma only_last_bind {A B} (p : E -> bool) (c : Py W E A) (k : A -> Py W E B) w :
  quiet (fun e => negb (p e)) c ->
  (forall a w1, only_last p (trace (k a w1)) = true) ->
  only_last p (trace (bind c k w)) = true.
Proof.
  intros Hq Hk. rewrite bind_run. destruct (Hq w) as [Ht _].
  destruct (c w) as [[[a | n | ex] w1] t1]; simpl in *.
  - apply only_last_app; auto.
  - apply only_last_quiet; auto.
  - apply only_last_quiet; auto.
Qed.

End OrderFacts.

Ltac py_handler_cases :=
  let ex := fresh "ex" in
  let k := fresh "k" in
  let H := fresh "H" in
  intros ex k H; destruct ex; simpl in H; try discriminate;
  try (destruct (Python.is_Exception _); try discriminate);
  injection H as <-.

Ltac quiet_auto :=
  repeat first
    [ apply quiet_bind; [| intro]
    | apply quiet_try_except; [| py_handler_cases]
    | apply quiet_emit; reflexivity
    | solve [auto with quiet]
    | match goal with
      | |- Python.quiet _ (if ?b then _ else _) => destruct b
      | |- Python.quiet _ (match ?x with _ => _ end) => destruct x
      end ].

Ltac run_cases :=
  repeat (simpl in *;
          match goal with
          | |- context [match ?x with _ => _ end] =>
              lazymatch x with
              | context [match _ with _ => _ end] => fail
              | _ => destruct x eqn:?
              end
          end).

(** ** Whole runs of [extract-aed] *)

Section AedWholeRun.
Import Python Json Aed.
Variable env : Env.

Lemma extract_only_last (args : Args) (sdk : SDK) (h : FileEventHandlers) (w : World) :
  only_last is_query (trace (_extract env args sdk h w)) = true.
Proof.
  unfold _extract, _parse_min_timestamp, py_lt, bind, lift, ret, raise, print,
    emit, exit, trace.
  run_cases; reflexivity.
Qed.

(** X11.  A run of [main] calls the extractor at most once, and nothing
    happens after that call: a query in the trace is its last event and no
    query comes before it. *)
Theorem main_issues_at_most_one_query (args : Args) (w : World) :
  forall pre e post,
    trace (main env args w) = pre ++ e :: post ->
    is_query e = true ->
    post = [] /\ no_query pre = true.
Proof.
  assert (H : only_last is_query (trace (main env args w)) = true).
  { unfold main.
    apply only_last_bind; [apply not_build_not_query, verify_quiet | intros _ w1].
    apply only_last_bind;
      [destruct (reset_password args);
         [apply not_build_not_query, delete_quiet | apply quiet_ret]
      | intros _ w2].
    apply only_last_bind; [apply create_handlers_quiet | intros h w3].
    apply only_last_bind; [apply set_up_cursor_store_quiet | intros h' w4].
    apply only_last_bind; [apply create_sdk_quiet | intros sdk w5].
    apply only_last_bind;
      [destruct (ignore_ssl_errors args); [apply ignore_ssl_quiet | apply quiet_ret]
      | intros _ w6].
    apply only_last_bind;
      [destruct (debug_mode args); [apply quiet_modify | apply quiet_ret]
      | intros _ w7].
    apply extract_only_last. }
  intros pre e post Heq Hq.
  exact (only_last_sound _ _ H pre e post Heq Hq).
Qed.

(** X12.  Every way [main] can end: it completes, with exit status 0; or
    it ends by [exit], and each [exit] in the program uses status 1; or an
    exception nobody caught ends it.  The status is 0 only when the run
    completed. *)
Theorem main_exit_status (args : Args) (w : World) :
  (result (main env args w) = Normal tt \/ stopped (result (main env args w))) /\
  (forall code, result (main env args w) = SysExit code -> code = 1) /\
  (exit_status (result (main env args w)) = 0 <->
   result (main env args w) = Normal tt).
Proof.
  assert (Hq : quiet any_event (main env args)).
  { unfold main, _verify_destination_args, _delete_stored_password,
      _create_handlers, _get_log_formatter, _get_logger, _set_up_cursor_store,
      store_reset, _create_sdk_from_args, _get_server_from_args,
      _get_username_from_args, _exit_from_argument_error, _get_password,
      print_nothing, call_handle_error, _ignore_ssl_errors, _extract,
      _parse_min_timestamp, py_lt, print.
    quiet_auto. }
  destruct (Hq w) as [_ Hs]. unfold stopped.
  destruct (result (main env args w)) as [[] | n | ex]; simpl in *.
  - repeat split; auto; intros; discriminate.
  - destruct Hs as [Hs | Hs]; [discriminate |]. subst.
    repeat split; auto; intros; try discriminate; congruence.
  - repeat split; eauto; intros; discriminate.
Qed.

(** X13.  What [main] does only on request: without [--record-cursor] and
    [--clear-cursor] it never opens the cursor store; without
    [--clear-cursor] it never resets it; without [--ignore-ssl-errors] it
    never disables the certificate warnings. *)
Theorem main_acts_only_on_request (args : Args) (w : World) :
  (record_cursor args = false -> clear_cursor args = false ->
   existsb is_store_call (trace (main env args w)) = false) /\
  (clear_cursor args = false ->
   existsb is_reset (trace (main env args w)) = false) /\
  (ignore_ssl_errors args = false ->
   existsb is_disable_warnings (trace (main env args w)) = false).
Proof.
  assert (Hnone : forall (p : event -> bool) (t : list event),
             forallb (fun e => negb (p e)) t = true -> existsb p t = false).
  { intros p t. induction t as [| e t IH]; simpl; auto.
    intro H. apply andb_prop in H. destruct H as [He H].
    destruct (p e); [discriminate | auto]. }
  repeat split; intros;
    apply Hnone;
    match goal with
    | |- forallb ?p (trace (main env args w)) = true =>
        assert (Hq : quiet p (main env args)); [| exact (proj1 (Hq w))]
    end;
    unfold main, _verify_destination_args, _delete_stored_password,
      _create_handlers, _get_log_formatter, _get_logger, _set_up_cursor_store,
      store_reset, _create_sdk_from_args, _get_server_from_args,
      _get_username_from_args, _exit_from_argument_error, _get_password,
      call_handle_error, _ignore_ssl_errors, _extract, _parse_min_timestamp,
      py_lt, print;
    repeat match goal with
           | Hf : _ args = false |- _ => rewrite Hf; clear Hf
           end;
    cbn iota; cbn [orb];
    quiet_auto.
Qed.

(** *** What the stages hand on *)

Lemma create_handlers_result (args : Args) (w w1 : World) (h : FileEventHandlers)
    (t : list event) :
  _create_handlers env args w = (Normal h, w1, t) ->
  exists f port,
    h = {| handle_error := error_logger_error;
           handle_response := handle_response_of (logger_of_args args f port);
           record_cursor_position := default_record_cursor_position;
           get_cursor_position := default_get_cursor_position |} /\
    int env (destination_port args) = inr port /\
    ((output_format args = "JSON" /\ f = AEDDictToJSONFormatter) \/
     (output_format args = "CEF" /\ f = AEDDictToCEFFormatter)) /\
    get_logger env (logger_of_args args f port) = inr tt.
Proof.
  unfold _create_handlers, _get_log_formatter, _get_logger, _get_response_handler,
    logger_of_args, try_except, bind, emit, modify, lift, raise, ret, print, exit.
  simpl.
  destruct (String.eqb_spec (output_format args) "JSON") as [Hj | Hj]; simpl.
  - destruct (int env (destination_port args)) as [ex | port]; simpl;
      [discriminate |].
    destruct (get_logger env _) as [[] | []] eqn:Hg; simpl; try discriminate.
    intro H. injection H as <- _ _.
    exists AEDDictToJSONFormatter, port. repeat split; auto.
  - destruct (String.eqb_spec (output_format args) "CEF") as [Hc | Hc]; simpl;
      [| discriminate].
    destruct (int env (destination_port args)) as [ex | port]; simpl;
      [discriminate |].
    destruct (get_logger env _) as [[] | []] eqn:Hg; simpl; try discriminate.
    intro H. injection H as <- _ _.
    exists AEDDictToCEFFormatter, port. repeat split; auto.
Qed.

Lemma set_up_cursor_store_result (rc cc : bool) (h h' : FileEventHandlers)
    (w w1 : World) (t : list event) :
  _set_up_cursor_store rc cc h w = (Normal h', w1, t) ->
  handle_error h' = handle_error h /\
  handle_response h' = handle_response h /\
  (rc = false -> h' = h).
Proof.
  unfold _set_up_cursor_store.
  destruct rc, cc; simpl; intro H; injection H as <- _ _; auto;
    repeat split; discriminate.
Qed.

Lemma create_sdk_result (args : Args) (h : FileEventHandlers) (w w1 : World)
    (sdk : SDK) (t : list event) :
  _create_sdk_from_args env args h w = (Normal sdk, w1, t) ->
  c42_authority_url args = Some (host_address sdk) /\
  c42_username args = Some (username sdk) /\
  create_using_local_account env sdk = inr tt.
Proof.
  unfold _create_sdk_from_args, _get_server_from_args, _get_username_from_args,
    _exit_from_argument_error, print.
  destruct (c42_authority_url args) as [server |]; [| discriminate].
  destruct (c42_username args) as [user |]; [| discriminate].
  rewrite bind_run. simpl. rewrite bind_run. simpl. rewrite bind_run.
  destruct (_get_password env user w) as [[[secret | n | ex] w2] t2]; simpl;
    try discriminate.
  unfold try_except, bind, emit, lift, raise, ret, exit, call_handle_error,
    result, world, trace.
  simpl.
  destruct (create_using_local_account env _) as [ex | []] eqn:Hc; simpl.
  - destruct (is_Exception ex); [| discriminate].
    destruct (handle_error h); discriminate.
  - intro H. injection H as <- _ _. auto.
Qed.

(** X14.  Whenever [main] calls the extractor, the objects it passes are
    those built from the command line: the SDK logged in for the given
    host and user; handlers whose error handler is the error logger and
    whose response handler writes to the logger obtained for the given
    destination, type, port and protocol, with the formatter the output
    format names; default cursor hooks unless [--record-cursor] is given;
    the end date and the exposure types as given. *)
Theorem extractor_receives_objects_built_from_args (args : Args) (w : World)
    (sdk : SDK) (h : FileEventHandlers) (mn mx : option Z)
    (exposure : option (list string)) :
  In (EExtract sdk h mn mx exposure) (trace (main env args w)) ->
  c42_authority_url args = Some (host_address sdk) /\
  c42_username args = Some (username sdk) /\
  create_using_local_account env sdk = inr tt /\
  handle_error h = error_logger_error /\
  (exists f port,
     handle_response h = handle_response_of (logger_of_args args f port) /\
     int env (destination_port args) = inr port /\
     ((output_format args = "JSON" /\ f = AEDDictToJSONFormatter) \/
      (output_format args = "CEF" /\ f = AEDDictToCEFFormatter)) /\
     get_logger env (logger_of_args args f port) = inr tt) /\
  (record_cursor args = false ->
   record_cursor_position h = default_record_cursor_position /\
   get_cursor_position h = default_get_cursor_position) /\
  parse_timestamp env (end_date args) = inr mx /\
  exposure = exposure_types args.
Proof.
  intro Hin. unfold main in Hin.
  apply in_trace_bind in Hin. destruct Hin as [Hin | (_ & w1 & t1 & _ & Hin)].
  { pose proof (quiet_no_query _ _ _ (not_build_not_query _ (verify_quiet args)) Hin).
    discriminate. }
  apply in_trace_bind in Hin. destruct Hin as [Hin | (_ & w2 & t2 & _ & Hin)].
  { assert (Hq : quiet not_query
                   (if reset_password args
                    then _delete_stored_password env (c42_username args)
                    else ret tt)).
    { destruct (reset_password args);
        [apply not_build_not_query, delete_quiet | apply quiet_ret]. }
    pose proof (quiet_no_query _ _ _ Hq Hin). discriminate. }
  apply in_trace_bind in Hin. destruct Hin as [Hin | (h1 & w3 & t3 & Hch & Hin)].
  { pose proof (quiet_no_query _ _ _ (create_handlers_quiet env args) Hin).
    discriminate. }
  apply create_handlers_result in Hch.
  destruct Hch as (f & port & Hh1 & Hint & Hfmt & Hlog).
  apply in_trace_bind in Hin. destruct Hin as [Hin | (h2 & w4 & t4 & Hcs & Hin)].
  { pose proof (quiet_no_query _ _ _ (set_up_cursor_store_quiet _ _ _) Hin).
    discriminate. }
  apply set_up_cursor_store_result in Hcs. destruct Hcs as (Herr & Hresp & Hsame).
  apply in_trace_bind in Hin. destruct Hin as [Hin | (sdk' & w5 & t5 & Hsdk & Hin)].
  { pose proof (quiet_no_query _ _ _ (create_sdk_quiet env args h2) Hin).
    discriminate. }
  apply create_sdk_result in Hsdk. destruct Hsdk as (Hhost & Huser & Hlogin).
  apply in_trace_bind in Hin. destruct Hin as [Hin | (_ & w6 & t6 & _ & Hin)].
  { assert (Hq : quiet not_query
                   (if ignore_ssl_errors args then _ignore_ssl_errors else ret tt)).
    { destruct (ignore_ssl_errors args); [apply ignore_ssl_quiet | apply quiet_ret]. }
    pose proof (quiet_no_query _ _ _ Hq Hin). discriminate. }
  apply in_trace_bind in Hin. destruct Hin as [Hin | (_ & w7 & t7 & _ & Hin)].
  { destruct (debug_mode args); simpl in Hin; contradiction. }
  destruct (extract_query env _ _ _ _ _ Hin eq_refl)
    as (mn' & mx' & Heq & _ & Hend & _).
  injection Heq as <- <- <- <- <-.
  rewrite Herr, Hresp, Hh1. simpl.
  repeat split; auto.
  - exists f, port. auto.
  - rewrite (Hsame H), Hh1. reflexivity.
  - rewrite (Hsame H), Hh1. reflexivity.
Qed.

(** X15.  With [--reset-password], every lookup of the password in the
    keyring comes after the call that deletes the password stored for the
    user. *)
Theorem reset_password_precedes_lookup (args : Args) (w : World) :
  reset_password args = true ->
  forall pre e post,
    trace (main env args w) = pre ++ e :: post ->
    is_keyring_get e = true ->
    In (EKeyringDelete _SERVICE_NAME_FOR_KEYCHAIN (c42_username args)) pre.
Proof.
  intros Hr pre e post Heq Hg.
  assert (H : preceded (is_delete_for (c42_username args)) is_keyring_get false
                (trace (main env args w)) = true).
  { unfold main. rewrite Hr. rewrite bind_run.
    assert (Hv : quiet (fun e => negb (is_keyring_get e))
                   (_verify_destination_args args)).
    { unfold _verify_destination_args, print. quiet_auto. }
    destruct (Hv w) as [Ht _].
    destruct (_verify_destination_args args w) as [[[a | n | ex] w1] t1]; simpl in *.
    - apply preceded_quiet; auto.
      rewrite bind_run.
      assert (Hd : exists o,
                 _delete_stored_password env (c42_username args) w1 =
                 (o, w1,
                  [EKeyringDelete _SERVICE_NAME_FOR_KEYCHAIN (c42_username args)])).
      { unfold _delete_stored_password, try_except, bind, emit, lift, raise, ret.
        simpl.
        destruct (keyring_delete_password env _ _) as [[] | []]; simpl; eauto. }
      destruct Hd as [o ->].
      assert (Hself : is_delete_for (c42_username args)
                        (EKeyringDelete _SERVICE_NAME_FOR_KEYCHAIN
                           (c42_username args)) = true).
      { simpl. destruct (c42_username args); auto. apply String.eqb_refl. }
      assert (Hcons : forall rest,
                 preceded (is_delete_for (c42_username args)) is_keyring_get false
                   (EKeyringDelete _SERVICE_NAME_FOR_KEYCHAIN (c42_username args)
                      :: rest) = true).
      { intro rest.
        change (preceded (is_delete_for (c42_username args)) is_keyring_get
                  (false || is_delete_for (c42_username args)
                              (EKeyringDelete _SERVICE_NAME_FOR_KEYCHAIN
                                 (c42_username args))) rest = true).
        rewrite Hself. apply preceded_seen. }
      destruct o; cbn [trace snd app]; apply Hcons.
    - rewrite <- (app_nil_r t1). apply preceded_quiet; auto.
    - rewrite <- (app_nil_r t1). apply preceded_quiet; auto. }
  destruct (preceded_sound _ _ _ _ H pre e post Heq Hg) as [Hs | Hex];
    [discriminate |].
  apply existsb_exists in Hex. destruct Hex as (x & Hin & Hx).
  destruct x; simpl in Hx; try discriminate.
  apply andb_prop in Hx. destruct Hx as [Hsv Hu].
  apply String.eqb_eq in Hsv. subst service.
  destruct user as [a |], (c42_username args) as [u |]; try discriminate.
  - apply String.eqb_eq in Hu. subst. exact Hin.
  - exact Hin.
Qed.

End AedWholeRun.

(** ** The response handler *)

Section AedHandler.
Import Python Json Aed.
Variable env : Env.

(** X16.  Whatever the body of the response, the handler never ends the
    process, leaves the state alone, and writes only lines, through its own
    logger; and when it does not return normally (the body is not JSON, the
    membership test or the loop raises), it has written nothing. *)
Theorem handle_response_fails_before_writing (logger : Logger) (text : string)
    (w : World) :
  world (handle_response_fn env logger text w) = w /\
  (forall code, result (handle_response_fn env logger text w) <> SysExit code) /\
  (completed (result (handle_response_fn env logger text w)) = false ->
   trace (handle_response_fn env logger text w) = []) /\
  (forall e,
     In e (trace (handle_response_fn env logger text w)) ->
     exists line, e = EWriteLine logger line).
Proof.
  unfold handle_response_fn, bind, lift, raise, ret, result, world, trace.
  destruct (json_loads env text) as [ex | v]; simpl.
  { repeat split; try discriminate; intros; contradiction. }
  destruct (py_in "fileEvents" v) as [ex | [|]]; simpl;
    try (repeat split; try discriminate; intros; contradiction).
  destruct (py_getitem v "fileEvents") as [ex | x]; simpl;
    try (repeat split; try discriminate; intros; contradiction).
  destruct (py_iter x) as [ex | items]; simpl;
    try (repeat split; try discriminate; intros; contradiction).
  rewrite for_each_emit. simpl.
  repeat split; try discriminate.
  intros e He. apply in_map_iff in He. destruct He as (ev & <- & _). eauto.
Qed.

(** X17.  A ["fileEvents"] field that holds [null], a boolean or a number
    is not taken as an empty page: the loop over it raises [TypeError], and
    nothing is written. *)
Theorem handle_response_scalar_events_raise (logger : Logger) (text : string)
    (fields : list (string * json)) (x : json) (w : World) :
  json_loads env text = inr (JObj fields) ->
  dict_get "fileEvents" fields = Some x ->
  x = JNull \/ (exists b, x = JBool b) \/ (exists n, x = JNum n) ->
  handle_response_fn env logger text w = (Raised TypeError, w, []).
Proof.
  intros Hl Hf Hx.
  unfold handle_response_fn, bind, lift, raise, ret, result, world, trace.
  rewrite Hl. simpl. rewrite Hf. simpl.
  destruct Hx as [-> | [[b ->] | [n ->]]]; reflexivity.
Qed.

(** X18.  Only a body that parses to an object can make the handler write:
    for a list, a string, a number, a boolean or [null] it writes nothing,
    whether it returns or raises. *)
Theorem handle_response_writes_only_for_objects (logger : Logger) (text : string)
    (v : json) (w : World) :
  json_loads env text = inr v ->
  (forall fields, v <> JObj fields) ->
  trace (handle_response_fn env logger text w) = [].
Proof.
  intros Hl Hv.
  unfold handle_response_fn, bind, lift, raise, ret, result, world, trace.
  rewrite Hl. simpl.
  destruct v as [| b | n | s | items | fields]; simpl; try reflexivity.
  - destruct (is_substring "fileEvents" s); reflexivity.
  - destruct (existsb (is_str "fileEvents") items); reflexivity.
  - exfalso. apply (Hv fields). reflexivity.
Qed.

End AedHandler.

(** * Further properties of the [alerts] commands *)

Section AlertsExtraction.
Import Python Alerts.
Variable env : Env.

Ltac unfold_alerts :=
  unfold search, send_to, _call_extractor, extractor_call, get_sdk,
    no_events_flag, handle_no_events, _get_alert_cursor_store,
    bind, lift, emit, ret, raise, gets, modify, result, world, trace.

(** X19.  With an advanced query, [_call_extractor] runs that query and
    nothing else: the dates are not turned into a filter and the list of
    search filters is left as it was. *)
Theorem advanced_query_overrides_dates (cli_state : CLIState)
    (begin_ end_ : option Z) (or_query : bool) (c : ascii) (q : string)
    (w : World) :
  search_filters
    (world (_call_extractor env cli_state begin_ end_ or_query
              (Some (String c q)) w)) = search_filters w /\
  trace (_call_extractor env cli_state begin_ end_ or_query (Some (String c q)) w) =
  AGetSdk ::
    match state_sdk env with
    | inl _ => []
    | inr _ => [ARunExtractor (ExtractAdvanced or_query (String c q))]
    end.
Proof.
  unfold_alerts. simpl.
  destruct (state_sdk env) as [ex | []]; simpl; auto.
  destruct (run_extractor env _) as [[total errored] [ex |]]; simpl; auto.
Qed.

(** X20.  Without an advanced query (none, or the empty string) and with
    the SDK at hand: when [begin] or [end] is given, the time range filter
    on the observed date is appended to the search filters, once and at
    the end, and the extractor gets the list so extended, in order; when
    the filter cannot be built, no extractor runs and the list is
    unchanged; when both dates are absent, or are the timestamp 0, which
    Python takes as false, the extractor gets the list as it was. *)
Theorem date_range_filter_is_appended (cli_state : CLIState)
    (begin_ end_ : option Z) (or_query : bool) (advanced_query : option string)
    (w : World) :
  truthy_str advanced_query = false ->
  state_sdk env = inr tt ->
  (truthy_ts begin_ = true \/ truthy_ts end_ = true ->
   match create_time_range_filter env begin_ end_ with
   | inr time_range =>
       search_filters
         (world (_call_extractor env cli_state begin_ end_ or_query
                   advanced_query w)) = search_filters w ++ [time_range] /\
       trace (_call_extractor env cli_state begin_ end_ or_query advanced_query w) =
       [AGetSdk; ARunExtractor (Extract or_query (search_filters w ++ [time_range]))]
   | inl ex =>
       _call_extractor env cli_state begin_ end_ or_query advanced_query w =
       (Raised ex, w, [AGetSdk])
   end)
  /\
  ((begin_ = None \/ begin_ = Some 0) /\ (end_ = None \/ end_ = Some 0) ->
   search_filters
     (world (_call_extractor env cli_state begin_ end_ or_query
               advanced_query w)) = search_filters w /\
   trace (_call_extractor env cli_state begin_ end_ or_query advanced_query w) =
   [AGetSdk; ARunExtractor (Extract or_query (search_filters w))]).
Proof.
  intros Ha Hs.
  assert (Hcall : _call_extractor env cli_state begin_ end_ or_query advanced_query w =
                  _call_extractor env cli_state begin_ end_ or_query None w).
  { destruct advanced_query as [[| c q] |]; try discriminate; reflexivity. }
  rewrite Hcall. unfold_alerts. rewrite Hs. simpl. split.
  - intro Ht.
    assert (Hb : truthy_ts begin_ || truthy_ts end_ = true).
    { destruct Ht as [-> | ->]; auto using orb_true_r. }
    rewrite Hb.
    destruct (create_time_range_filter env begin_ end_) as [ex | f]; simpl; auto.
    destruct (run_extractor env _) as [[total errored] [ex |]]; simpl; auto.
  - intros [Hbn Hen].
    assert (Hb : truthy_ts begin_ || truthy_ts end_ = false).
    { destruct Hbn as [-> | ->], Hen as [-> | ->]; reflexivity. }
    rewrite Hb. simpl.
    destruct (run_extractor env _) as [[total errored] [ex |]]; simpl; auto.
Qed.

Ltac in_cases H :=
  simpl in H;
  repeat (match type of H with
          | _ \/ _ => destruct H as [H | H]
          | In _ (_ ++ _) => apply in_app_or in H
          | In _ (_ :: _) => simpl in H
          | In _ [] => contradiction
          | False => contradiction
          end);
  try discriminate.

(** X21.  [search] and [send_to] run the extractor only after everything
    before it has succeeded: for [search] the default header, the SDK and
    the handlers; for [send_to] the logger for the server, the SDK and the
    handlers.  They run it once. *)
Theorem extractor_runs_after_setup (cli_state : CLIState)
    (format hostname protocol : string) (begin_ end_ : option Z)
    (advanced_query use_checkpoint : option string)
    (or_query include_all : bool) (w : World) (request : Extraction) :
  (In (ARunExtractor request)
      (trace (search env cli_state format begin_ end_ advanced_query
                use_checkpoint or_query include_all w)) ->
   (exists header,
      try_get_default_header env include_all SEARCH_DEFAULT_HEADER format =
      inr header) /\
   state_sdk env = inr tt /\
   create_handlers env = inr tt /\
   List.length
     (filter is_query
        (trace (search env cli_state format begin_ end_ advanced_query
                  use_checkpoint or_query include_all w))) = 1%nat)
  /\
  (In (ARunExtractor request)
      (trace (send_to env cli_state format hostname protocol begin_ end_
                advanced_query use_checkpoint or_query w)) ->
   get_logger_for_server env hostname protocol format = inr tt /\
   state_sdk env = inr tt /\
   create_send_to_handlers env = inr tt /\
   List.length
     (filter is_query
        (trace (send_to env cli_state format hostname protocol begin_ end_
                  advanced_query use_checkpoint or_query w))) = 1%nat).
Proof.
  split; unfold_alerts; run_cases; intro H; in_cases H;
    repeat match goal with u : unit |- _ => destruct u end;
    repeat split; eauto.
Qed.

(** X22.  The cursor store follows [--use-checkpoint].  Once the header
    is computed, [search] first opens the store of the profile when a
    non-empty checkpoint name is given, and opens nothing otherwise; then
    it takes the SDK, and creates the handlers with that store, or with
    none, with the name, and with a formatter that carries the requested
    format and the computed header.  Nothing later in the run opens a
    store or creates handlers.  When the header cannot be computed, nothing
    is done at all. *)
Theorem search_cursor_follows_use_checkpoint (cli_state : CLIState)
    (format : string) (begin_ end_ : option Z)
    (advanced_query use_checkpoint : option string)
    (or_query include_all : bool) (w : World) :
  (forall profile,
     In (ANewCursorStore profile)
        (trace (search env cli_state format begin_ end_ advanced_query
                  use_checkpoint or_query include_all w)) ->
     truthy_str use_checkpoint = true /\ profile = profile_name cli_state)
  /\
  (forall cursor name formatter force_pager,
     In (ACreateHandlers cursor name formatter force_pager)
        (trace (search env cli_state format begin_ end_ advanced_query
                  use_checkpoint or_query include_all w)) ->
     cursor = (if truthy_str use_checkpoint
               then Some (profile_name cli_state) else None) /\
     name = use_checkpoint /\
     force_pager = include_all /\
     output_format formatter = format /\
     try_get_default_header env include_all SEARCH_DEFAULT_HEADER format =
     inr (output_header formatter))
  /\
  (forall header,
     try_get_default_header env include_all SEARCH_DEFAULT_HEADER format =
     inr header ->
     exists rest,
       trace (search env cli_state format begin_ end_ advanced_query
                use_checkpoint or_query include_all w) =
       (if truthy_str use_checkpoint
        then [ANewCursorStore (profile_name cli_state)] else [])
       ++ AGetSdk :: rest /\
       (forall ex, state_sdk env = inl ex -> rest = []) /\
       (state_sdk env = inr tt ->
        exists rest',
          rest =
          ACreateHandlers
            (if truthy_str use_checkpoint
             then Some (profile_name cli_state) else None)
            use_checkpoint
            {| output_format := format; output_header := header |}
            include_all :: rest' /\
          existsb is_cursor_setup rest' = false))
  /\
  (forall ex,
     try_get_default_header env include_all SEARCH_DEFAULT_HEADER format =
     inl ex ->
     search env cli_state format begin_ end_ advanced_query use_checkpoint
       or_query include_all w = (Raised ex, w, [])).
Proof.
  split; [| split; [| split]].
  - intro profile. unfold_alerts. run_cases; intro H; in_cases H;
      injection H as <-; auto.
  - intros cursor name formatter force_pager.
    unfold_alerts. run_cases; intro H; in_cases H;
      injection H as <- <- <- <-;
      repeat match goal with
             | Ht : truthy_str _ = _ |- _ => rewrite Ht
             end;
      repeat split; auto.
  - intros header Hh. unfold_alerts. rewrite Hh.
    run_cases; eexists; (split; [reflexivity |]);
      (split; [intros; try discriminate; reflexivity |]);
      intros; try discriminate;
      eexists; split; reflexivity.
  - intros ex Hh. unfold_alerts. rewrite Hh. reflexivity.
Qed.

(** X23.  [send_to] and [search] extract alike: once their own setup has
    succeeded, the two commands, given the same dates, queries and flags,
    make the same call to the extractor and leave the same list of search
    filters. *)
Theorem send_to_extracts_like_search (cli_state : CLIState)
    (format server_format hostname protocol : string) (begin_ end_ : option Z)
    (advanced_query use_checkpoint : option string)
    (or_query include_all : bool) (w : World)
    (header : option (list (string * string))) :
  try_get_default_header env include_all SEARCH_DEFAULT_HEADER format = inr header ->
  create_handlers env = inr tt ->
  get_logger_for_server env hostname protocol server_format = inr tt ->
  create_send_to_handlers env = inr tt ->
  filter is_query
    (trace (send_to env cli_state server_format hostname protocol begin_ end_
              advanced_query use_checkpoint or_query w)) =
  filter is_query
    (trace (search env cli_state format begin_ end_ advanced_query use_checkpoint
              or_query include_all w)) /\
  search_filters
    (world (send_to env cli_state server_format hostname protocol begin_ end_
              advanced_query use_checkpoint or_query w)) =
  search_filters
    (world (search env cli_state format begin_ end_ advanced_query use_checkpoint
              or_query include_all w)).
Proof.
  intros Hh Hc Hl Hs.
  unfold_alerts.
  rewrite Hh, Hc, Hl, Hs.
  run_cases; repeat split; reflexivity.
Qed.

End AlertsExtraction.

(** * The further properties on the sample runs *)

Section FurtherSampleRuns.
Import Python Json Aed Samples Samples.AedRun.

Lemma main_stops_at_destination_conflict_witness :
  destination_args_conflict file_without_destination_args /\
  reset_password file_without_destination_args = true /\
  exists message,
    main sample_env file_without_destination_args sample_world =
    (SysExit 1, sample_world, [EPrint message]).
Proof.
  assert (H : destination_args_conflict file_without_destination_args)
    by (right; left; split; reflexivity).
  exact (conj H (conj eq_refl
           (main_stops_at_destination_conflict sample_env
              file_without_destination_args sample_world H))).
Defined.

Lemma reset_of_absent_password_is_harmless_witness :
  ~ destination_args_conflict recent_begin_args /\
  keyring_delete_password (prompting_env (inr "n") None) _SERVICE_NAME_FOR_KEYCHAIN
    (c42_username recent_begin_args) = inl PasswordDeleteError /\
  main (prompting_env (inr "n") None) (set_reset_password true recent_begin_args)
    sample_world =
  (result (main (prompting_env (inr "n") None)
             (set_reset_password false recent_begin_args) sample_world),
   world (main (prompting_env (inr "n") None)
            (set_reset_password false recent_begin_args) sample_world),
   EKeyringDelete _SERVICE_NAME_FOR_KEYCHAIN (c42_username recent_begin_args)
     :: trace (main (prompting_env (inr "n") None)
                 (set_reset_password false recent_begin_args) sample_world)).
Proof.
  assert (H : ~ destination_args_conflict recent_begin_args).
  { intros [[_ H] | [[H _] | [H _]]];
      [apply H; reflexivity | discriminate H | discriminate H]. }
  exact (conj H (conj eq_refl
           (reset_of_absent_password_is_harmless (prompting_env (inr "n") None)
              recent_begin_args sample_world H eq_refl))).
Defined.

Lemma main_missing_account_stops_before_login_witness :
  (c42_authority_url anonymous_args = None \/ c42_username anonymous_args = None) /\
  reset_password anonymous_args = true /\
  result (main sample_env anonymous_args sample_world) = SysExit 1 /\
  filter is_keyring_call (trace (main sample_env anonymous_args sample_world)) =
  [EKeyringDelete _SERVICE_NAME_FOR_KEYCHAIN None] /\
  forallb before_login (trace (main sample_env anonymous_args sample_world)) = true.
Proof.
  destruct (main_missing_account_stops_before_login sample_env anonymous_args
              sample_world (or_intror eq_refl)) as (_ & _ & Hb & _).
  exact (conj (or_intror eq_refl) (conj eq_refl (conj eq_refl (conj eq_refl Hb)))).
Defined.

Lemma password_saved_only_on_yes_witness :
  In (EKeyringSet _SERVICE_NAME_FOR_KEYCHAIN "analyst@example.com" "typed")
     (trace (_get_password (prompting_env (inr "Yes") None) "analyst@example.com"
               sample_world)) /\
  getpass (prompting_env (inr "Yes") None) password_prompt = inr "typed" /\
  result (_get_password (prompting_env (inr "Yes") None) "analyst@example.com"
            sample_world) = Normal "typed".
Proof.
  assert (Hin : In (EKeyringSet _SERVICE_NAME_FOR_KEYCHAIN "analyst@example.com"
                      "typed")
                   (trace (_get_password (prompting_env (inr "Yes") None)
                             "analyst@example.com" sample_world)))
    by (vm_compute; tauto).
  destruct (password_saved_only_on_yes (prompting_env (inr "Yes") None)
              "analyst@example.com" sample_world _ _ _ Hin)
    as (_ & _ & _ & Hg & _ & _).
  exact (conj Hin (conj Hg eq_refl)).
Defined.


Lemma empty_save_answer_raises_witness :
  keyring_get_password (prompting_env (inr EmptyString) None)
    _SERVICE_NAME_FOR_KEYCHAIN "analyst@example.com" = inr None /\
  getpass (prompting_env (inr EmptyString) None) password_prompt = inr "typed" /\
  get_input (prompting_env (inr EmptyString) None) save_prompt = inr EmptyString /\
  _get_password (prompting_env (inr EmptyString) None) "analyst@example.com"
    sample_world =
  (Raised IndexError, sample_world,
   [EKeyringGet _SERVICE_NAME_FOR_KEYCHAIN "analyst@example.com";
    EGetpass password_prompt;
    EGetInput save_prompt]).
Proof.
  exact (conj eq_refl (conj eq_refl (conj eq_refl
           (empty_save_answer_raises (prompting_env (inr EmptyString) None)
              "analyst@example.com" "typed" sample_world
              eq_refl eq_refl eq_refl)))).
Defined.

Lemma sdk_failure_reported_as_bad_login_witness :
  create_using_local_account
    (prompting_env (inr "n") (Some (OtherException "ConnectionError")))
    typed_sdk = inl (OtherException "ConnectionError") /\
  is_Exception (OtherException "ConnectionError") = true /\
  _create_sdk_from_args
    (prompting_env (inr "n") (Some (OtherException "ConnectionError")))
    recent_begin_args sample_handlers sample_world =
  (SysExit 1, sample_world,
   [EKeyringGet _SERVICE_NAME_FOR_KEYCHAIN "analyst@example.com";
    EGetpass password_prompt;
    EGetInput save_prompt]
   ++ [ESdkCreate typed_sdk;
       EErrorLoggerError (OtherException "ConnectionError");
       EPrint "Incorrect username or password."]).
Proof.
  exact (conj eq_refl (conj eq_refl
           (sdk_failure_reported_as_bad_login
              (prompting_env (inr "n") (Some (OtherException "ConnectionError")))
              recent_begin_args sample_handlers sample_world sample_world
              [EKeyringGet _SERVICE_NAME_FOR_KEYCHAIN "analyst@example.com";
               EGetpass password_prompt;
               EGetInput save_prompt]
              "https://console.example.com" "analyst@example.com" "typed"
              (OtherException "ConnectionError")
              eq_refl eq_refl eq_refl eq_refl eq_refl))).
Defined.

Lemma missing_begin_is_rejected_witness :
  parse_timestamp sample_env (begin_date no_begin_args) = inr None /\
  _parse_min_timestamp sample_env (begin_date no_begin_args) sample_world =
  (Raised TypeError, sample_world, []) /\
  exit_status (result (main sample_env no_begin_args sample_world)) = 1 /\
  no_query (trace (main sample_env no_begin_args sample_world)) = true.
Proof.
  exact (conj eq_refl
           (missing_begin_is_rejected sample_env no_begin_args sample_world eq_refl)).
Defined.

Lemma main_issues_at_most_one_query_witness :
  trace (main sample_env recent_begin_args sample_world) =
  [EGetErrorLogger; ENewFormatter AEDDictToJSONFormatter; EGetLogger stdout_logger;
   EKeyringGet _SERVICE_NAME_FOR_KEYCHAIN "analyst@example.com";
   ESdkCreate sample_sdk]
  ++ EExtract sample_sdk sample_handlers (Some 1592265600000000) None None :: [] /\
  is_query (EExtract sample_sdk sample_handlers (Some 1592265600000000) None None) =
  true /\
  no_query
    [EGetErrorLogger; ENewFormatter AEDDictToJSONFormatter; EGetLogger stdout_logger;
     EKeyringGet _SERVICE_NAME_FOR_KEYCHAIN "analyst@example.com";
     ESdkCreate sample_sdk] = true.
Proof.
  exact (conj eq_refl (conj eq_refl
           (proj2 (main_issues_at_most_one_query sample_env recent_begin_args
                     sample_world
                     [EGetErrorLogger; ENewFormatter AEDDictToJSONFormatter;
                      EGetLogger stdout_logger;
                      EKeyringGet _SERVICE_NAME_FOR_KEYCHAIN "analyst@example.com";
                      ESdkCreate sample_sdk]
                     (EExtract sample_sdk sample_handlers (Some 1592265600000000)
                        None None)
                     [] eq_refl eq_refl)))).
Defined.

Lemma extractor_receives_objects_built_from_args_witness :
  In (EExtract sample_sdk sample_handlers (Some 1592265600000000) None None)
     (trace (main sample_env recent_begin_args sample_world)) /\
  c42_authority_url recent_begin_args = Some (host_address sample_sdk) /\
  c42_username recent_begin_args = Some (username sample_sdk) /\
  handle_error sample_handlers = error_logger_error.
Proof.
  assert (Hin : In (EExtract sample_sdk sample_handlers (Some 1592265600000000)
                      None None)
                   (trace (main sample_env recent_begin_args sample_world)))
    by (vm_compute; tauto).
  destruct (extractor_receives_objects_built_from_args sample_env
              recent_begin_args sample_world _ _ _ _ _ Hin)
    as (Hh & Hu & _ & He & _).
  exact (conj Hin (conj Hh (conj Hu He))).
Defined.

Lemma reset_password_precedes_lookup_witness :
  reset_password reset_password_args = true /\
  existsb is_keyring_get (trace (main sample_env reset_password_args sample_world)) =
  true /\
  forall pre e post,
    trace (main sample_env reset_password_args sample_world) = pre ++ e :: post ->
    is_keyring_get e = true ->
    In (EKeyringDelete _SERVICE_NAME_FOR_KEYCHAIN (c42_username reset_password_args))
       pre.
Proof.
  exact (conj eq_refl (conj eq_refl
           (reset_password_precedes_lookup sample_env reset_password_args
              sample_world eq_refl))).
Defined.

Lemma handle_response_scalar_events_raise_witness :
  json_loads (parsing_env (JObj [("fileEvents", JNull)])) "page" =
  inr (JObj [("fileEvents", JNull)]) /\
  dict_get "fileEvents" [("fileEvents", JNull)] = Some JNull /\
  handle_response_fn (parsing_env (JObj [("fileEvents", JNull)])) stdout_logger
    "page" sample_world =
  (Raised TypeError, sample_world, []).
Proof.
  exact (conj eq_refl (conj eq_refl
           (handle_response_scalar_events_raise
              (parsing_env (JObj [("fileEvents", JNull)])) stdout_logger "page"
              [("fileEvents", JNull)] JNull sample_world
              eq_refl eq_refl (or_introl eq_refl)))).
Defined.

Lemma handle_response_writes_only_for_objects_witness :
  json_loads (parsing_env (JArr [JStr "fileEvents"])) "page" =
  inr (JArr [JStr "fileEvents"]) /\
  (forall fields, JArr [JStr "fileEvents"] <> JObj fields) /\
  result (handle_response_fn (parsing_env (JArr [JStr "fileEvents"])) stdout_logger
            "page" sample_world) = Raised TypeError /\
  trace (handle_response_fn (parsing_env (JArr [JStr "fileEvents"])) stdout_logger
           "page" sample_world) = [].
Proof.
  assert (H : forall fields, JArr [JStr "fileEvents"] <> JObj fields)
    by (intros fields Heq; discriminate Heq).
  exact (conj eq_refl (conj H (conj eq_refl
           (handle_response_writes_only_for_objects
              (parsing_env (JArr [JStr "fileEvents"])) stdout_logger "page"
              (JArr [JStr "fileEvents"]) sample_world eq_refl H)))).
Defined.

End FurtherSampleRuns.

Section FurtherSampleAlertsRuns.
Import Python Alerts Samples Samples.AlertsRun.

Lemma date_range_filter_is_appended_witness :
  truthy_str None = false /\
  state_sdk (sample_env 3 false) = inr tt /\
  truthy_ts since_june = true /\
  search_filters
    (world (_call_extractor (sample_env 3 false) sample_state since_june None
              false None sample_world)) =
  [OptionFilter "severity=HIGH"; DateObservedRange since_june None] /\
  trace (_call_extractor (sample_env 3 false) sample_state since_june None
           false None sample_world) =
  [AGetSdk;
   ARunExtractor
     (Extract false [OptionFilter "severity=HIGH"; DateObservedRange since_june None])].
Proof.
  exact (conj eq_refl (conj eq_refl (conj eq_refl
           (proj1 (date_range_filter_is_appended (sample_env 3 false) sample_state
                     since_june None false None sample_world eq_refl eq_refl)
                  (or_introl eq_refl))))).
Defined.

Lemma send_to_extracts_like_search_witness :
  try_get_default_header (sample_env 0 false) false SEARCH_DEFAULT_HEADER "TABLE" =
  inr (Some SEARCH_DEFAULT_HEADER) /\
  create_handlers (sample_env 0 false) = inr tt /\
  get_logger_for_server (sample_env 0 false) "syslog.example.com" "TCP" "JSON" =
  inr tt /\
  create_send_to_handlers (sample_env 0 false) = inr tt /\
  filter is_query
    (trace (send_to (sample_env 0 false) sample_state "JSON" "syslog.example.com"
              "TCP" since_june None None None false sample_world)) =
  filter is_query
    (trace (search (sample_env 0 false) sample_state "TABLE" since_june None None
              None false false sample_world)).
Proof.
  exact (conj eq_refl (conj eq_refl (conj eq_refl (conj eq_refl
           (proj1
              (send_to_extracts_like_search (sample_env 0 false) sample_state
                 "TABLE" "JSON" "syslog.example.com" "TCP" since_june None None
                 None false false sample_world (Some SEARCH_DEFAULT_HEADER)
                 eq_refl eq_refl eq_refl eq_refl)))))).
Defined.

Lemma search_cursor_follows_use_checkpoint_witness :
  try_get_default_header (sample_env 0 false) false SEARCH_DEFAULT_HEADER "TABLE" =
  inr (Some SEARCH_DEFAULT_HEADER) /\
  state_sdk (sample_env 0 false) = inr tt /\
  exists rest,
    trace (search (sample_env 0 false) sample_state "TABLE" None None None
             (Some "nightly") false false sample_world) =
    [ANewCursorStore "default"; AGetSdk;
     ACreateHandlers (Some "default") (Some "nightly")
       {| output_format := "TABLE"; output_header := Some SEARCH_DEFAULT_HEADER |}
       false] ++ rest /\
    existsb is_cursor_setup rest = false.
Proof.
  refine (conj eq_refl (conj eq_refl _)).
  destruct (proj1 (proj2 (proj2
              (search_cursor_follows_use_checkpoint (sample_env 0 false)
                 sample_state "TABLE" None None None (Some "nightly") false false
                 sample_world)))
              (Some SEARCH_DEFAULT_HEADER) eq_refl) as (rest & Ht & _ & Hr).
  destruct (Hr eq_refl) as (rest' & -> & Hn).
  exists rest'. exact (conj Ht Hn).
Defined.

End FurtherSampleAlertsRuns.
